(** * Amazon price tracker: the extraction pipeline of [price_v2.py]

    A shallow embedding of the pure core of [src/price_v2.py]:
    - [normalize_price_to_float], the locale-free price parser;
    - the selector chains and result assembly of [fetch_amazon_price]
      (everything that happens once the page has been parsed into a soup);
    - [append_history_csv], the history appender, over an explicit file
      system state.

    Python values are modelled as the code has them: a [str] is a sequence
    of Unicode code points, a [float] is an IEEE-754 binary64 value, an
    exception is a value of [exn] carried by the [result] monad. *)

From Stdlib Require Import ZArith NArith List String Ascii Bool Lia.
From Stdlib Require Import Floats.SpecFloat.
From stdpp Require Import gmap strings.
Import ListNotations.

Local Open Scope N_scope.

(* ===================================================================== *)
(** ** Python strings *)
(* ===================================================================== *)

(** A Python [str] is a sequence of code points. *)
Definition char : Type := N.
Definition str : Type := list char.

(** ASCII literals of the source, as code points. *)
Definition py (s : string) : str := map N_of_ascii (list_ascii_of_string s).

Definition DOT : char := 46.
Definition COMMA : char := 44.
Definition SPACE : char := 32.

(** Truth value of a [str]: the empty string is false. *)
Definition truthy (s : str) : bool :=
  match s with
  | [] => false
  | _ :: _ => true
  end.

(** Truth value of a variable holding [None] or a [str]. *)
Definition truthy_opt (o : option str) : bool :=
  match o with
  | None => false
  | Some s => truthy s
  end.

(** The part of the Unicode character database the interpreter consults
    for code points outside ASCII: the decimal value of a character of
    category Nd ([Py_UNICODE_TODECIMAL]) and the white-space property
    ([Py_UNICODE_ISSPACE]).  The table depends on the Unicode version the
    interpreter ships, so it is a parameter; in every version a white-space
    character is not a decimal digit. *)
Class UnicodeData := {
  db_todecimal : char -> option N;
  db_isspace : char -> bool;
  db_space_not_decimal : forall c, db_isspace c = true -> db_todecimal c = None
}.

(** A database with no entry outside ASCII. *)
Definition ascii_todecimal (c : char) : option N := None.
Definition ascii_isspace (c : char) : bool := false.

(** A database with some of the real non-ASCII entries: the Arabic-Indic
    and Devanagari digits, and the white space of Latin-1 and of the
    General Punctuation block. *)
Definition sample_todecimal (c : char) : option N :=
  if (1632 <=? c) && (c <=? 1641) then Some (c - 1632)
  else if (2406 <=? c) && (c <=? 2415) then Some (c - 2406)
  else None.

Definition sample_isspace (c : char) : bool :=
  (c =? 133) || (c =? 160) || ((8192 <=? c) && (c <=? 8202)) || (c =? 12288).

Section Strings.
Context {U : UnicodeData}.

(** [Py_UNICODE_TODECIMAL]: ASCII digits have their usual value. *)
Definition todecimal (c : char) : option N :=
  if c <? 128 then
    (if (48 <=? c) && (c <=? 57) then Some (c - 48) else None)
  else db_todecimal c.

(** [\d] of a [str] pattern, [str.isdecimal] on one character. *)
Definition isdecimal (c : char) : bool :=
  match todecimal c with
  | Some _ => true
  | None => false
  end.

(** [\s] of a [str] pattern, [str.isspace] on one character: in ASCII,
    TAB LF VT FF CR, FS GS RS US and the space. *)
Definition isspace (c : char) : bool :=
  if c <? 128 then
    ((9 <=? c) && (c <=? 13)) || ((28 <=? c) && (c <=? 31)) || (c =? 32)
  else db_isspace c.

(** [re.sub(cls, "", s)] for a pattern [cls] that is one character class:
    every character of the class is deleted. *)
Definition re_sub_delete (cls : char -> bool) (s : str) : str :=
  List.filter (fun c => negb (cls c)) s.

(** The class [[^\d\.,]]. *)
Definition not_digit_dot_comma (c : char) : bool :=
  negb (isdecimal c || (c =? DOT) || (c =? COMMA)).

(** The class [[\d\.,\s]]. *)
Definition digit_dot_comma_space (c : char) : bool :=
  isdecimal c || (c =? DOT) || (c =? COMMA) || isspace c.

(** [str.strip()] with no argument. *)
Fixpoint lstrip (s : str) : str :=
  match s with
  | [] => []
  | c :: s' => if isspace c then lstrip s' else s
  end.

Definition rstrip (s : str) : str := rev (lstrip (rev s)).

Definition strip (s : str) : str := rstrip (lstrip s).

(** [c in s] for a one-character [c]. *)
Definition str_in (c : char) (s : str) : bool := existsb (N.eqb c) s.

(** [s.rfind(c)] for a one-character [c]: the highest index of [c] in
    [s], or -1. *)
Fixpoint rfind_from (c : char) (s : str) (i last : Z) : Z :=
  match s with
  | [] => last
  | x :: s' => rfind_from c s' (i + 1)%Z (if x =? c then i else last)
  end.

Definition rfind (c : char) (s : str) : Z := rfind_from c s 0%Z (-1)%Z.

(** [s.replace(old, new)] for a one-character [old]. *)
Definition replace (old : char) (new : str) (s : str) : str :=
  flat_map (fun c => if c =? old then new else [c]) s.

(** [sep.join(parts)]. *)
Fixpoint join (sep : str) (parts : list str) : str :=
  match parts with
  | [] => []
  | [p] => p
  | p :: rest => p ++ sep ++ join sep rest
  end.

End Strings.

(* ===================================================================== *)
(** ** Exceptions *)
(* ===================================================================== *)

Inductive exn : Type :=
| ValueError
| RuntimeError (msg : string).

Inductive result (A : Type) : Type :=
| Ok (a : A)
| Raise (e : exn).

Arguments Ok {A} a.
Arguments Raise {A} e.

Definition bind {A B : Type} (r : result A) (k : A -> result B) : result B :=
  match r with
  | Ok a => k a
  | Raise e => Raise e
  end.

(** [try: body  except ValueError: handler] *)
Definition except_ValueError {A : Type} (body : result A) (handler : result A)
  : result A :=
  match body with
  | Raise ValueError => handler
  | other => other
  end.

(* ===================================================================== *)
(** ** Python floats *)
(* ===================================================================== *)

(** A [float] is a binary64 value. *)
Definition float : Type := spec_float.
Definition prec : Z := 53.
Definition emax : Z := 1024.

(** The binary64 value nearest to [m / 10^k], ties to even: the correctly
    rounded conversion [float()] performs on a decimal numeral.  A numeral
    too large for the format gives [inf], one too small gives [0.0]. *)
Definition float_of_decimal (m : N) (k : nat) : float :=
  match m with
  | N0 => S754_zero false
  | Npos p =>
      let '(q, e, l) :=
        SFdiv_core_binary prec emax (Zpos p) 0 (10 ^ Z.of_nat k) 0 in
      binary_round_aux prec emax false q e l
  end.

(** [x] is the finite positive binary64 [mx * 2^ex], and differs from
    [m / 10^k] by at most half a unit in its last place. *)
Definition nearest_binary64 (m : N) (k : nat) (x : float) : Prop :=
  match x with
  | S754_finite false mx ex =>
      valid_binary prec emax x = true /\
      (ex < 0)%Z /\
      (2 * Z.abs (Zpos mx * 10 ^ Z.of_nat k - Z.of_N m * 2 ^ (- ex))
       <= 10 ^ Z.of_nat k)%Z
  | _ => False
  end.

Section Float.
Context {U : UnicodeData}.

(** Reads a maximal run of decimal digits: the value accumulated on top
    of [acc], the number of digits read, and the rest of the input. *)
Fixpoint scan_digits (s : str) (acc : N) (n : nat) : N * nat * str :=
  match s with
  | [] => (acc, n, [])
  | c :: s' =>
      match todecimal c with
      | Some d => scan_digits s' (10 * acc + d) (S n)
      | None => (acc, n, s)
      end
  end.

(** [float(s)] for a string [s] made of decimal digits and ['.'] only,
    which is all the source ever passes ([float_argument_alphabet]
    below).  On that alphabet [float] accepts exactly the numerals
    [digits], [digits.], [.digits] and [digits.digits] (Unicode decimal
    digits count with their value) and raises [ValueError] on everything
    else; signs, exponents, underscores, [inf] and [nan] are outside
    the alphabet and are rejected here. *)
Definition py_float (s : str) : result float :=
  let '(ip, n1, rest) := scan_digits s 0 0%nat in
  match rest with
  | [] =>
      if (n1 =? 0)%nat then Raise ValueError
      else Ok (float_of_decimal ip 0)
  | c :: frac =>
      if c =? DOT then
        let '(m, n2, rest') := scan_digits frac ip 0%nat in
        match rest' with
        | [] =>
            if (n1 + n2 =? 0)%nat then Raise ValueError
            else Ok (float_of_decimal m n2)
        | _ :: _ => Raise ValueError
        end
      else Raise ValueError
  end.

End Float.

(* ===================================================================== *)
(** ** [normalize_price_to_float] *)
(* ===================================================================== *)

Section Normalize.
Context {U : UnicodeData}.

(** The separator rewriting between the cleaning and the call of
    [float]. *)
Definition rewrite_separators (cleaned : str) : str :=
  if str_in DOT cleaned && str_in COMMA cleaned then
    if (rfind COMMA cleaned >? rfind DOT cleaned)%Z then
      let cleaned := replace DOT [] cleaned in
      replace COMMA [DOT] cleaned
    else
      replace COMMA [] cleaned
  else
    if str_in COMMA cleaned then
      let cleaned := replace DOT [] cleaned in
      replace COMMA [DOT] cleaned
    else cleaned.

(** [Ok None] is the source's [return None]. *)
Definition normalize_price_to_float (text : str) : result (option float) :=
  if negb (truthy text) then Ok None
  else
    let cleaned := strip (re_sub_delete not_digit_dot_comma text) in
    if negb (truthy cleaned) then Ok None
    else
      let cleaned := rewrite_separators cleaned in
      except_ValueError
        (bind (py_float cleaned) (fun v => Ok (Some v)))
        (Ok None).

End Normalize.

(* ===================================================================== *)
(** ** The parsed page *)
(* ===================================================================== *)

(** A BeautifulSoup [Tag], seen through [get_text]: the strings
    [get_text] visits below the element, in document order. *)
Record Tag : Type := { tag_strings : list str }.

(** The parsed document, seen through [select_one]: the first element a
    CSS selector matches, or [None]. *)
Record Soup : Type := { select_one : string -> option Tag }.

Section Page.
Context {U : UnicodeData}.

(** [el.get_text(sep, strip=True)]: every text node is stripped, the
    empty ones are skipped, the others are joined with [sep]. *)
Definition get_text (sep : str) (el : Tag) : str :=
  join sep (List.filter truthy (map strip (tag_strings el))).

(** [a or b] on elements: a [Tag] is always true, [None] is false. *)
Definition or_else (a b : option Tag) : option Tag :=
  match a with
  | Some el => Some el
  | None => b
  end.

(** The loop over the price selectors: [price_text] stays [None] until a
    selector yields an element whose text is non-empty, then the loop
    breaks. *)
Fixpoint first_price_text (soup : Soup) (candidates : list string)
  : option str :=
  match candidates with
  | [] => None
  | sel :: rest =>
      match select_one soup sel with
      | Some el =>
          let t := get_text [SPACE] el in
          if truthy t then Some t else first_price_text soup rest
      | None => first_price_text soup rest
      end
  end.

End Page.

Definition candidates : list string :=
  [ "#priceblock_ourprice";
    "#priceblock_dealprice";
    "#priceblock_saleprice";
    "span.a-price span.a-offscreen";
    "#corePriceDisplay_desktop_feature_div span.a-price span.a-offscreen";
    "#corePrice_feature_div span.a-price span.a-offscreen" ]%string.

(** The two failures of the extraction: both are [RuntimeError], told
    apart by their message. *)
Definition PriceNotFound : exn :=
  RuntimeError
    "Price element not found. The page layout may be different or blocked by Amazon.".

Definition PriceUnparseable : exn :=
  RuntimeError
    "Price could not be parsed. The content may be blocked or the format is unexpected.".

(** The dict [fetch_amazon_price] returns.  [obs_price] holds whatever
    [normalize_price_to_float] returned. *)
Record observation : Type := {
  obs_url : str;
  obs_title : str;
  obs_price : option float;
  obs_price_text : str;
  obs_currency_hint : str
}.

Section Fetch.
Context {U : UnicodeData}.

(** The expression that derives the currency hint from the price
    text. *)
Definition currency_hint_of (price_text : str) : str :=
  strip (re_sub_delete digit_dot_comma_space price_text).

(** [fetch_amazon_price] from the point where the page has been parsed:
    [soup] is [BeautifulSoup(driver.page_source, "lxml")].  Starting the
    browser, loading the page and quitting the browser are the caller's
    environment and are not part of this function. *)
Definition fetch_amazon_price (url : str) (soup : Soup)
  : result observation :=
  let title_el :=
    or_else (select_one soup "#productTitle") (select_one soup "h1#title") in
  let title :=
    match title_el with
    | Some el => get_text [SPACE] el
    | None => []
    end in
  let price_text := first_price_text soup candidates in
  if negb (truthy_opt price_text) then Raise PriceNotFound
  else
    let price_text := default [] price_text in
    let currency_hint := currency_hint_of price_text in
    bind (normalize_price_to_float price_text) (fun price_val =>
      match price_val with
      | None => Raise PriceUnparseable
      | Some _ =>
          Ok {| obs_url := url;
                obs_title := title;
                obs_price := price_val;
                obs_price_text := price_text;
                obs_currency_hint := currency_hint |}
      end).

End Fetch.

(* ===================================================================== *)
(** ** The history file *)
(* ===================================================================== *)

(** A value handed to [csv.writer.writerow]. *)
Inductive cell : Type :=
| CStr (s : str)
| CFloat (x : float).

Definition row : Type := list cell.

(** The file system, as far as the appender sees it: the directories that
    exist, and for every regular file the rows written to it through a
    [csv.writer], in file order.  How a row is laid out as text (excel
    dialect, UTF-8) is the [csv] module's and the file object's. *)
Record filesystem : Type := {
  fs_dirs : gset string;
  fs_files : gmap string (list row)
}.

Definition os_makedirs_exist_ok (d : string) (fs : filesystem) : filesystem :=
  {| fs_dirs := {[ d ]} ∪ fs_dirs fs; fs_files := fs_files fs |}.

(** [os.path.join] of two relative POSIX components. *)
Definition os_path_join (a b : string) : string := (a ++ "/" ++ b)%string.

Definition os_path_exists (path : string) (fs : filesystem) : bool :=
  bool_decide (is_Some (fs_files fs !! path)).

(** [open(path, "a")]: the file is created empty when it does not exist,
    and is never truncated. *)
Definition open_append (path : string) (fs : filesystem) : filesystem :=
  {| fs_dirs := fs_dirs fs;
     fs_files := <[ path := default [] (fs_files fs !! path) ]> (fs_files fs) |}.

(** [w.writerow(r)] on a writer over the file opened at [path]: the row
    goes to the end of the file. *)
Definition writerow (path : string) (r : row) (fs : filesystem) : filesystem :=
  {| fs_dirs := fs_dirs fs;
     fs_files := <[ path := default [] (fs_files fs !! path) ++ [r] ]> (fs_files fs) |}.

Definition ensure_data_dir (fs : filesystem) : filesystem :=
  os_makedirs_exist_ok "data" fs.

Definition header : row :=
  [ CStr (py "timestamp"); CStr (py "url"); CStr (py "title");
    CStr (py "price"); CStr (py "raw_price") ].

Definition history_path : string := os_path_join "data" "price_history.csv".

(** [now] is what [now_str()] returns during the call. *)
Definition append_history_csv (now : str) (url title : str) (price : float)
    (raw_price : str) (fs : filesystem) : filesystem :=
  let fs := ensure_data_dir fs in
  let path := history_path in
  let file_exists := os_path_exists path fs in
  let fs := open_append path fs in
  let fs := if negb file_exists then writerow path header fs else fs in
  writerow path [CStr now; CStr url; CStr title; CFloat price; CStr raw_price] fs.

(** One request to the appender, and a run of requests. *)
Record save_request : Type := {
  req_now : str;
  req_url : str;
  req_title : str;
  req_price : float;
  req_raw_price : str
}.

Definition data_row (q : save_request) : row :=
  [ CStr (req_now q); CStr (req_url q); CStr (req_title q);
    CFloat (req_price q); CStr (req_raw_price q) ].

Definition save (fs : filesystem) (q : save_request) : filesystem :=
  append_history_csv (req_now q) (req_url q) (req_title q) (req_price q)
    (req_raw_price q) fs.

Definition save_all (qs : list save_request) (fs : filesystem) : filesystem :=
  fold_left save qs fs.

Definition history (fs : filesystem) : option (list row) :=
  fs_files fs !! history_path.

(* ===================================================================== *)
(** ** Two Unicode databases *)
(* ===================================================================== *)

Definition ascii_only : UnicodeData :=
  {| db_todecimal := ascii_todecimal;
     db_isspace := ascii_isspace;
     db_space_not_decimal := fun _ _ => eq_refl |}.

Definition sample_unicode : UnicodeData.
Proof.
  refine {| db_todecimal := sample_todecimal; db_isspace := sample_isspace |}.
  intros c. unfold sample_isspace, sample_todecimal.
  repeat match goal with
         | |- context [N.leb ?a ?b] => destruct (N.leb_spec a b)
         | |- context [N.eqb ?a ?b] => destruct (N.eqb_spec a b)
         end; simpl; intros; try reflexivity; try discriminate; lia.
Defined.

(* ===================================================================== *)
(** ** The normalizer's steps, as the specification words them *)
(* ===================================================================== *)

Section SpecWords.
Context {U : UnicodeData}.

(** A digit, ['.'] or [',']. *)
Definition digit_dot_comma (c : char) : bool :=
  isdecimal c || (c =? DOT) || (c =? COMMA).

(** Step 1: every character that is not a digit, ['.'] or [','] is
    stripped. *)
Definition spec_strip_noise (text : str) : str :=
  List.filter digit_dot_comma text.

(** Step 3: the string is parsed as a decimal number; when parsing
    fails the result is Unparseable. *)
Definition spec_parse (s : str) : result (option float) :=
  match py_float s with
  | Ok v => Ok (Some v)
  | Raise _ => Ok None
  end.

(** The number a run of decimal digits denotes, on top of [acc]. *)
Definition decimal_value (ds : str) (acc : N) : N :=
  fold_left (fun a c => 10 * a + default 0 (todecimal c)) ds acc.

(** Every occurrence of [mark] removed. *)
Definition spec_remove (mark : char) (s : str) : str :=
  List.filter (fun c => negb (c =? mark)) s.

(** Every occurrence of [mark] rewritten to ['.']. *)
Definition spec_to_dot (mark : char) (s : str) : str :=
  map (fun c => if c =? mark then DOT else c) s.

(** The currency hint: every digit, ['.'], [','] and white-space
    character removed. *)
Definition spec_hint (text : str) : str :=
  List.filter
    (fun c => negb (isdecimal c) && negb (c =? DOT) && negb (c =? COMMA)
              && negb (isspace c)) text.

End SpecWords.

(** The Unparseable signal of the normalizer. *)
Definition Unparseable : result (option float) := Ok None.

(* ===================================================================== *)
(** ** The locator chain, as the specification words it *)
(* ===================================================================== *)

Section SpecLocator.
Context {U : UnicodeData}.

(** What one rule yields on a document: the normalized text of the
    element its query finds, if it finds one. *)
Definition rule_text (soup : Soup) (sel : string) : option str :=
  match select_one soup sel with
  | Some el => Some (get_text [SPACE] el)
  | None => None
  end.

(** The rule yields no element, or only empty text. *)
Definition rule_fails (soup : Soup) (sel : string) : Prop :=
  rule_text soup sel = None \/ rule_text soup sel = Some [].

End SpecLocator.

(** The selectors tried for the title, in the order the source tries
    them. *)
Definition title_rules : list string := [ "#productTitle"; "h1#title" ]%string.

(** ** Sample pages *)

Fixpoint lookup_selector (sel : string) (entries : list (string * list str))
  : option Tag :=
  match entries with
  | [] => None
  | (s, texts) :: rest =>
      if String.eqb sel s then Some {| tag_strings := texts |}
      else lookup_selector sel rest
  end.

(** The page on which each listed selector finds an element with the
    listed text nodes, and no other selector finds anything. *)
Definition page (entries : list (string * list str)) : Soup :=
  {| select_one := fun sel => lookup_selector sel entries |}.

(** Only the third of the six price selectors matches. *)
Definition page_third_rule : Soup :=
  page [ ("#priceblock_saleprice"%string, [py " 1.234,56 TL "]) ].

(** No title element; the price element holds an em dash (U+2014). *)
Definition page_dash_price : Soup :=
  page [ ("#priceblock_ourprice"%string, [[8212]]) ].

(** No title element; the price element holds a bare number. *)
Definition page_bare_price : Soup :=
  page [ ("span.a-price span.a-offscreen"%string, [py "49.90"]) ].

(** A file system without the history file, and two requests. *)
Definition empty_fs : filesystem := {| fs_dirs := ∅; fs_files := ∅ |}.

Definition first_request : save_request :=
  {| req_now := py "2024-01-05 10:00:00";
     req_url := py "https://www.amazon.com.tr/dp/B0";
     req_title := py "Kettle";
     req_price := float_of_decimal 123456 2;
     req_raw_price := py "1.234,56 TL" |}.

Definition second_request : save_request :=
  {| req_now := py "2024-01-06 10:00:00";
     req_url := py "https://www.amazon.com.tr/dp/B0";
     req_title := py "Kettle";
     req_price := float_of_decimal 4990 2;
     req_raw_price := py "49,90 TL" |}.

(** An empty first title element in front of a second one with text. *)
Definition page_two_titles : Soup :=
  page [ ("#productTitle"%string, [py "  "]);
         ("h1#title"%string, [py "Kettle"]);
         ("#priceblock_ourprice"%string, [py "$49.90"]) ].

(* ===================================================================== *)
(** ** Words for further properties *)
(* ===================================================================== *)

(** A float that is [+0.0], a positive finite number or [+inf]: not
    negative, not [-0.0], not [nan]. *)
Definition nonnegative (x : float) : Prop :=
  match x with
  | S754_zero false => True
  | S754_finite false _ _ => True
  | S754_infinity false => True
  | _ => False
  end.

Section Trimmed.
Context {U : UnicodeData}.

(** Neither the first nor the last character is white space. *)
Definition trimmed (s : str) : Prop :=
  match s with
  | [] => True
  | c :: _ => isspace c = false
  end
  /\ match rev s with
     | [] => True
     | c :: _ => isspace c = false
     end.

(** Every character is white space. *)
Definition blank (s : str) : Prop := Forall (fun c => isspace c = true) s.

End Trimmed.

(* ===================================================================== *)
(** ** The window *)
(* ===================================================================== *)

(** Library functions the window formats its texts with: [str.lower],
    [str] of a float and [str] of an int. *)
Class Builtins := {
  str_lower : str -> str;
  float_str : float -> str;
  int_str : Z -> str
}.

(** A [QMessageBox] shown to the user. *)
Inductive dialog : Type :=
| Warning (title text : str)
| Information (title text : str)
| Critical (title text : str).

(** What the browser part of [fetch_amazon_price] does on one call,
    before the page is parsed: it delivers the page, or raises. *)
Inductive page_load : Type :=
| PageSource (soup : Soup)
| TimeoutException
| WebDriverException (msg : str)
| OtherException (msg : str).

(** The fields of [MainWindow] and the state of its widgets. *)
Record window : Type := {
  last_result : option observation;
  url_input : str;
  target_price : Z;
  timeout_input : Z;
  headless_checked : bool;
  headless_text : str;
  fetch_enabled : bool;
  save_enabled : bool;
  title_lbl : str;
  price_lbl : str;
  log_box : list str
}.

Definition set_last_result (r : option observation) (w : window) : window :=
  {| last_result := r; url_input := url_input w;
     target_price := target_price w; timeout_input := timeout_input w;
     headless_checked := headless_checked w;
     headless_text := headless_text w; fetch_enabled := fetch_enabled w;
     save_enabled := save_enabled w; title_lbl := title_lbl w;
     price_lbl := price_lbl w; log_box := log_box w |}.

Definition set_fetch_enabled (b : bool) (w : window) : window :=
  {| last_result := last_result w; url_input := url_input w;
     target_price := target_price w; timeout_input := timeout_input w;
     headless_checked := headless_checked w;
     headless_text := headless_text w; fetch_enabled := b;
     save_enabled := save_enabled w; title_lbl := title_lbl w;
     price_lbl := price_lbl w; log_box := log_box w |}.

Definition set_save_enabled (b : bool) (w : window) : window :=
  {| last_result := last_result w; url_input := url_input w;
     target_price := target_price w; timeout_input := timeout_input w;
     headless_checked := headless_checked w;
     headless_text := headless_text w; fetch_enabled := fetch_enabled w;
     save_enabled := b; title_lbl := title_lbl w;
     price_lbl := price_lbl w; log_box := log_box w |}.

Definition set_title_lbl (s : str) (w : window) : window :=
  {| last_result := last_result w; url_input := url_input w;
     target_price := target_price w; timeout_input := timeout_input w;
     headless_checked := headless_checked w;
     headless_text := headless_text w; fetch_enabled := fetch_enabled w;
     save_enabled := save_enabled w; title_lbl := s;
     price_lbl := price_lbl w; log_box := log_box w |}.

Definition set_price_lbl (s : str) (w : window) : window :=
  {| last_result := last_result w; url_input := url_input w;
     target_price := target_price w; timeout_input := timeout_input w;
     headless_checked := headless_checked w;
     headless_text := headless_text w; fetch_enabled := fetch_enabled w;
     save_enabled := save_enabled w; title_lbl := title_lbl w;
     price_lbl := s; log_box := log_box w |}.

Definition set_headless_text (s : str) (w : window) : window :=
  {| last_result := last_result w; url_input := url_input w;
     target_price := target_price w; timeout_input := timeout_input w;
     headless_checked := headless_checked w;
     headless_text := s; fetch_enabled := fetch_enabled w;
     save_enabled := save_enabled w; title_lbl := title_lbl w;
     price_lbl := price_lbl w; log_box := log_box w |}.

(** [self.log(msg)]: one more paragraph in the log box. *)
Definition log (msg : str) (w : window) : window :=
  {| last_result := last_result w; url_input := url_input w;
     target_price := target_price w; timeout_input := timeout_input w;
     headless_checked := headless_checked w;
     headless_text := headless_text w; fetch_enabled := fetch_enabled w;
     save_enabled := save_enabled w; title_lbl := title_lbl w;
     price_lbl := price_lbl w; log_box := log_box w ++ [msg] |}.

(** The em dash of the source's literals, and the line feed. *)
Definition EM_DASH : char := 8212.
Definition LF : char := 10.

(** The window as [__init__] leaves it. *)
Definition MainWindow_init : window :=
  {| last_result := None;
     url_input := [];
     target_price := 0;
     timeout_input := 20;
     headless_checked := true;
     headless_text := py "Headless: ON";
     fetch_enabled := true;
     save_enabled := false;
     title_lbl := py "Product: " ++ [EM_DASH];
     price_lbl := py "Price: " ++ [EM_DASH];
     log_box := [] |}.

(** [needle in hay] for strings. *)
Fixpoint starts_with (needle hay : str) : bool :=
  match needle, hay with
  | [], _ => true
  | _ :: _, [] => false
  | a :: needle', b :: hay' => (a =? b) && starts_with needle' hay'
  end.

Fixpoint str_contains (needle hay : str) : bool :=
  starts_with needle hay
  || match hay with
     | [] => false
     | _ :: hay' => str_contains needle hay'
     end.

(** [a or b] on strings. *)
Definition or_str (a b : str) : str := if truthy a then a else b.

(** [x <= t] for a float [x] and an int [t]: the two are compared by
    value, exactly. *)
Definition float_le_int (x : float) (t : Z) : bool :=
  match x with
  | S754_zero _ => (0 <=? t)%Z
  | S754_infinity s => s
  | S754_nan => false
  | S754_finite s m e =>
      let n := if s then Zneg m else Zpos m in
      if (0 <=? e)%Z then (n * 2 ^ e <=? t)%Z
      else (n <=? t * 2 ^ (- e))%Z
  end.

(** [str(e)] for an exception of the extraction.  [ValueError] never
    leaves [fetch_amazon_price]; its message is not modelled. *)
Definition exn_str (e : exn) : str :=
  match e with
  | RuntimeError msg => py msg
  | ValueError => []
  end.

Section Window.
Context {U : UnicodeData} {B : Builtins}.

Definition toggle_headless (w : window) : window :=
  set_headless_text
    (if headless_checked w then py "Headless: ON" else py "Headless: OFF") w.

(** [{price}] in an f-string: the price is a float or [None]. *)
Definition price_str (price : option float) : str :=
  match price with
  | Some x => float_str x
  | None => py "None"
  end.

(** The [try] block of [fetch_price] once [fetch_amazon_price] has
    returned [data]. *)
Definition show_result (now : str) (data : observation) (w : window)
  : window * list dialog :=
  let title := or_str (obs_title data) (py "(title not found)") in
  let price := obs_price data in
  let price_text := or_str (obs_price_text data) [] in
  let currency := or_str (obs_currency_hint data) [] in
  let w := set_last_result (Some data) w in
  let w := set_title_lbl (py "Product: " ++ title) w in
  let w := set_price_lbl
             (py "Price: " ++ price_str price ++ py "  |  (raw: "
              ++ price_text ++ py ")") w in
  let w := log (strip (py "[" ++ now ++ py "] OK " ++ [EM_DASH]
                       ++ py " parsed price: " ++ price_str price
                       ++ py " " ++ currency)) w in
  let w := set_save_enabled true w in
  let target := target_price w in
  let alert :=
    match price with
    | Some x =>
        if (target >? 0)%Z && float_le_int x target then
          [ Information (py "Target Reached!")
              (strip (py "Price is below your target." ++ [LF; LF]
                      ++ py "Target: " ++ int_str target ++ [LF]
                      ++ py "Current: " ++ price_str price
                      ++ py " " ++ currency)) ]
        else []
    | None => []
    end in
  (w, alert).

(** The handler of an exception that is neither a [TimeoutException] nor
    a [WebDriverException]: [msg] is [str(e)]. *)
Definition show_error (now : str) (msg : str) (w : window)
  : window * list dialog :=
  (log (py "[" ++ now ++ py "] ERROR " ++ [EM_DASH] ++ py " " ++ msg) w,
   [ Critical (py "Error") msg ]).

(** [fetch_price].  [loaded] is what the browser does on this call, [now1]
    and [now2] are what [now_str()] returns at its two calls. *)
Definition fetch_price (loaded : page_load) (now1 now2 : str) (w : window)
  : window * list dialog :=
  let url := strip (url_input w) in
  if negb (truthy url) || negb (str_contains (py "amazon") (str_lower url))
  then
    (w, [ Warning (py "Invalid URL")
            (py "Please enter a valid Amazon product URL.") ])
  else
    let w := set_fetch_enabled false w in
    let w := set_save_enabled false w in
    let w := set_title_lbl (py "Product: " ++ [EM_DASH]) w in
    let w := set_price_lbl (py "Price: " ++ [EM_DASH]) w in
    let w := set_last_result None w in
    let w := log (py "[" ++ now1
                  ++ py "] Fetching page... (UI may freeze briefly)") w in
    let '(w, dialogs) :=
      match loaded with
      | PageSource soup =>
          match fetch_amazon_price url soup with
          | Ok data => show_result now2 data w
          | Raise e => show_error now2 (exn_str e) w
          end
      | TimeoutException =>
          (log (py "[" ++ now2 ++ py "] ERROR " ++ [EM_DASH]
                ++ py " Timeout while loading the page.") w,
           [ Critical (py "Error") (py "Timeout: page is slow or blocked.") ])
      | WebDriverException msg =>
          (log (py "[" ++ now2 ++ py "] ERROR " ++ [EM_DASH]
                ++ py " WebDriver issue: " ++ msg) w,
           [ Critical (py "Error")
               (py "Selenium/WebDriver error:" ++ [LF] ++ msg) ])
      | OtherException msg => show_error now2 msg w
      end in
    (set_fetch_enabled true w, dialogs).

End Window.

(** A cell for the price as [save_history] passes it: a float, or [None],
    which [csv.writer] writes as the empty field. *)
Definition price_cell (price : option float) : cell :=
  match price with
  | Some x => CFloat x
  | None => CStr []
  end.

(** [append_history_csv] on a price that may be [None]. *)
Definition append_history_any (now : str) (url title : str)
    (price : option float) (raw_price : str) (fs : filesystem) : filesystem :=
  let fs := ensure_data_dir fs in
  let path := history_path in
  let file_exists := os_path_exists path fs in
  let fs := open_append path fs in
  let fs := if negb file_exists then writerow path header fs else fs in
  writerow path [CStr now; CStr url; CStr title; price_cell price;
                 CStr raw_price] fs.

(** [save_history].  [now1] is the time stamp of the row, [now2] the one
    of the log line. *)
Definition save_history (now1 now2 : str) (w : window) (fs : filesystem)
  : window * filesystem * list dialog :=
  match last_result w with
  | None => (w, fs, [])
  | Some data =>
      let url := obs_url data in
      let title := obs_title data in
      let price := obs_price data in
      let raw_price := obs_price_text data in
      let fs := append_history_any now1 url title price raw_price fs in
      let w := log (py "[" ++ now2 ++ py "] Saved to data/price_history.csv")
                 w in
      (w, fs, [ Information (py "Saved")
                  (py "Saved to CSV (data/price_history.csv).") ])
  end.

(** The application: the window, the file system, and the dialogs shown
    so far. *)
Record application : Type := {
  app_window : window;
  app_fs : filesystem;
  app_dialogs : list dialog
}.

(** What can happen to the window.  The user edits the URL, sets one of
    the two spin boxes (to a value of its range) or clicks a button; a
    click on the fetch button comes with what the browser does and with
    the two clock readings, a click on the save button with its two
    clock readings.  A disabled button does not react. *)
Inductive event : Type :=
| EditUrl (text : str)
| SetTarget (value : Z)
| SetTimeout (value : Z)
| ClickHeadless
| ClickFetch (loaded : page_load) (now1 now2 : str)
| ClickSave (now1 now2 : str).

Definition set_url_input (s : str) (w : window) : window :=
  {| last_result := last_result w; url_input := s;
     target_price := target_price w; timeout_input := timeout_input w;
     headless_checked := headless_checked w;
     headless_text := headless_text w; fetch_enabled := fetch_enabled w;
     save_enabled := save_enabled w; title_lbl := title_lbl w;
     price_lbl := price_lbl w; log_box := log_box w |}.

(** [QSpinBox.setValue]: the value is brought into the range. *)
Definition clamp (lo hi v : Z) : Z := Z.max lo (Z.min hi v).

Definition set_target_price (v : Z) (w : window) : window :=
  {| last_result := last_result w; url_input := url_input w;
     target_price := clamp 0 10000000 v; timeout_input := timeout_input w;
     headless_checked := headless_checked w;
     headless_text := headless_text w; fetch_enabled := fetch_enabled w;
     save_enabled := save_enabled w; title_lbl := title_lbl w;
     price_lbl := price_lbl w; log_box := log_box w |}.

Definition set_timeout_input (v : Z) (w : window) : window :=
  {| last_result := last_result w; url_input := url_input w;
     target_price := target_price w; timeout_input := clamp 5 120 v;
     headless_checked := headless_checked w;
     headless_text := headless_text w; fetch_enabled := fetch_enabled w;
     save_enabled := save_enabled w; title_lbl := title_lbl w;
     price_lbl := price_lbl w; log_box := log_box w |}.

Definition set_headless_checked (b : bool) (w : window) : window :=
  {| last_result := last_result w; url_input := url_input w;
     target_price := target_price w; timeout_input := timeout_input w;
     headless_checked := b;
     headless_text := headless_text w; fetch_enabled := fetch_enabled w;
     save_enabled := save_enabled w; title_lbl := title_lbl w;
     price_lbl := price_lbl w; log_box := log_box w |}.

Section Application.
Context {U : UnicodeData} {B : Builtins}.

Definition step (a : application) (ev : event) : application :=
  let w := app_window a in
  match ev with
  | EditUrl text =>
      {| app_window := set_url_input text w; app_fs := app_fs a;
         app_dialogs := app_dialogs a |}
  | SetTarget v =>
      {| app_window := set_target_price v w; app_fs := app_fs a;
         app_dialogs := app_dialogs a |}
  | SetTimeout v =>
      {| app_window := set_timeout_input v w; app_fs := app_fs a;
         app_dialogs := app_dialogs a |}
  | ClickHeadless =>
      {| app_window :=
           toggle_headless
             (set_headless_checked (negb (headless_checked w)) w);
         app_fs := app_fs a; app_dialogs := app_dialogs a |}
  | ClickFetch loaded now1 now2 =>
      if fetch_enabled w then
        let '(w', ds) := fetch_price loaded now1 now2 w in
        {| app_window := w'; app_fs := app_fs a;
           app_dialogs := app_dialogs a ++ ds |}
      else a
  | ClickSave now1 now2 =>
      if save_enabled w then
        let '(w', fs', ds) := save_history now1 now2 w (app_fs a) in
        {| app_window := w'; app_fs := fs';
           app_dialogs := app_dialogs a ++ ds |}
      else a
  end.

Definition run (evs : list event) (a : application) : application := fold_left step evs a.

(** The application at start, over a given file system. *)
Definition start (fs : filesystem) : application :=
  {| app_window := MainWindow_init; app_fs := fs; app_dialogs := [] |}.

End Application.

Section WindowWords.
Context {U : UnicodeData}.

(** What a call of [fetch_amazon_price] on [url] delivers when the
    browser does [loaded]: the observation, or nothing when the browser
    or the extraction raises. *)
Definition fetched (loaded : page_load) (url : str) : option observation :=
  match loaded with
  | PageSource soup =>
      match fetch_amazon_price url soup with
      | Ok data => Some data
      | Raise _ => None
      end
  | _ => None
  end.

(** A result the window may hold: its price is the number its price text
    normalizes to. *)
Definition result_ok (data : observation) : Prop :=
  exists v : float,
    obs_price data = Some v
    /\ obs_price_text data <> []
    /\ normalize_price_to_float (obs_price_text data) = Ok (Some v).

(** The window between two events. *)
Definition window_ok (w : window) : Prop :=
  fetch_enabled w = true
  /\ save_enabled w = match last_result w with Some _ => true | None => false end
  /\ headless_text w
     = (if headless_checked w then py "Headless: ON" else py "Headless: OFF")
  /\ (0 <= target_price w <= 10000000)%Z
  /\ (5 <= timeout_input w <= 120)%Z
  /\ (forall data, last_result w = Some data -> result_ok data).

(** A row of the history file that holds a price parsed from its own raw
    price text. *)
Definition parsed_row (r : row) : Prop :=
  exists (now url title raw : str) (v : float),
    r = [CStr now; CStr url; CStr title; CFloat v; CStr raw]
    /\ raw <> []
    /\ normalize_price_to_float raw = Ok (Some v).

(** The history file after some events, against the file before them:
    nothing, or the old rows followed by rows of parsed prices, after a
    header if the file was not there. *)
Definition history_grown (before after : option (list row)) : Prop :=
  match before, after with
  | None, None => True
  | None, Some rs =>
      exists rows, rs = header :: rows /\ Forall parsed_row rows
  | Some old, Some rs =>
      exists rows, rs = old ++ rows /\ Forall parsed_row rows
  | Some _, None => False
  end.

End WindowWords.

(* ===================================================================== *)
(** ** Time stamps *)
(* ===================================================================== *)

(** What [datetime.now()] reads, down to the second. *)
Record datetime : Type := {
  dt_year : N;
  dt_month : N;
  dt_day : N;
  dt_hour : N;
  dt_minute : N;
  dt_second : N
}.

(** The dates and times a [datetime] of four-digit year can hold. *)
Definition valid_datetime (dt : datetime) : Prop :=
  1000 <= dt_year dt <= 9999
  /\ 1 <= dt_month dt <= 12
  /\ 1 <= dt_day dt <= 31
  /\ dt_hour dt < 24
  /\ dt_minute dt < 60
  /\ dt_second dt < 60.

Definition digit_char (d : N) : char := 48 + d.

(** A number below 100 as two decimal digits ([%m], [%d], [%H], [%M],
    [%S]), one below 10000 as four ([%Y]). *)
Definition pad2 (n : N) : str := [digit_char (n / 10); digit_char (n mod 10)].

Definition pad4 (n : N) : str := pad2 (n / 100) ++ pad2 (n mod 100).

(** [now_str()] when the clock reads [dt]:
    [strftime("%Y-%m-%d %H:%M:%S")]. *)
Definition now_str (dt : datetime) : str :=
  pad4 (dt_year dt) ++ py "-" ++ pad2 (dt_month dt) ++ py "-"
  ++ pad2 (dt_day dt) ++ py " " ++ pad2 (dt_hour dt) ++ py ":"
  ++ pad2 (dt_minute dt) ++ py ":" ++ pad2 (dt_second dt).

(** The order of [str]: by code point, left to right. *)
Fixpoint str_compare (a b : str) : comparison :=
  match a, b with
  | [], [] => Eq
  | [], _ :: _ => Lt
  | _ :: _, [] => Gt
  | x :: a', y :: b' =>
      match x ?= y with
      | Eq => str_compare a' b'
      | c => c
      end
  end.

(** [c] unless it is [Eq], then [d]. *)
Definition then_compare (c d : comparison) : comparison :=
  match c with
  | Eq => d
  | _ => c
  end.

(** The order of time. *)
Definition datetime_compare (a b : datetime) : comparison :=
  then_compare (dt_year a ?= dt_year b)
    (then_compare (dt_month a ?= dt_month b)
       (then_compare (dt_day a ?= dt_day b)
          (then_compare (dt_hour a ?= dt_hour b)
             (then_compare (dt_minute a ?= dt_minute b)
                (dt_second a ?= dt_second b))))).

(* ===================================================================== *)
(** ** Sample data for the further properties *)
(* ===================================================================== *)

(** Lower-casing of the ASCII letters. *)
Definition ascii_lower (s : str) : str :=
  map (fun c => if (65 <=? c) && (c <=? 90) then c + 32 else c) s.

(** The decimal numeral of a natural number; [fuel] bounds the number of
    digits. *)
Fixpoint decimal_digits (fuel : nat) (n : N) : str :=
  match fuel with
  | O => []
  | S fuel' =>
      if n <? 10 then [digit_char n]
      else decimal_digits fuel' (n / 10) ++ [digit_char (n mod 10)]
  end.

Definition decimal_of_int (z : Z) : str :=
  (if (z <? 0)%Z then py "-" else [])
  ++ decimal_digits (S (N.to_nat (N.log2 (Z.abs_N z)))) (Z.abs_N z).

(** Builtins for the examples: ASCII lower-casing, decimal numerals of
    ints, and for a float its sign and class only. *)
Definition sample_builtins : Builtins :=
  {| str_lower := ascii_lower;
     float_str := fun x =>
       match x with
       | S754_zero _ => py "0.0"
       | S754_infinity false => py "inf"
       | S754_infinity true => py "-inf"
       | S754_nan => py "nan"
       | S754_finite false _ _ => py "<positive float>"
       | S754_finite true _ _ => py "<negative float>"
       end;
     int_str := decimal_of_int |}.

(** A window whose URL field holds a product URL and whose target is
    50. *)
Definition window_with_target : window :=
  set_target_price 50
    (set_url_input (py "  https://www.Amazon.com.tr/dp/B0 ") MainWindow_init).

(** A file system whose history file holds one foreign row. *)
Definition fs_with_history : filesystem :=
  {| fs_dirs := ∅;
     fs_files := {[ history_path := [[CStr (py "old")]] ]} |}.

(** Two clock readings, one second apart across midnight. *)
Definition last_second_of_2024 : datetime :=
  {| dt_year := 2024; dt_month := 12; dt_day := 31;
     dt_hour := 23; dt_minute := 59; dt_second := 59 |}.

Definition first_second_of_2025 : datetime :=
  {| dt_year := 2025; dt_month := 1; dt_day := 1;
     dt_hour := 0; dt_minute := 0; dt_second := 0 |}.

(** [page_two_titles] with another second title element. *)
Definition page_two_titles_other : Soup :=
  page [ ("#productTitle"%string, [py "  "]);
         ("h1#title"%string, [py "Toaster"]);
         ("#priceblock_ourprice"%string, [py "$49.90"]) ].

(* ===================================================================== *)
(** ** Strings: basic facts *)
(* ===================================================================== *)

Ltac cases_on_tests :=
  repeat match goal with
         | |- context [N.leb ?a ?b] => destruct (N.leb_spec a b)
         | |- context [N.ltb ?a ?b] => destruct (N.ltb_spec a b)
         | |- context [N.eqb ?a ?b] => destruct (N.eqb_spec a b)
         | H : context [N.leb ?a ?b] |- _ => destruct (N.leb_spec a b)
         | H : context [N.ltb ?a ?b] |- _ => destruct (N.ltb_spec a b)
         | H : context [N.eqb ?a ?b] |- _ => destruct (N.eqb_spec a b)
         end.

Section StringFacts.
Context {U : UnicodeData}.

Lemma isspace_not_digit_dot_comma (c : char) :
  isspace c = true -> digit_dot_comma c = false.
Proof.
  unfold isspace, digit_dot_comma, isdecimal, todecimal, DOT, COMMA.
  destruct (N.ltb_spec c 128) as [Hlt | Hge].
  - cases_on_tests; simpl; intros; try reflexivity; try discriminate; lia.
  - intros Hs. rewrite (db_space_not_decimal c Hs).
    cases_on_tests; simpl; try reflexivity; lia.
Qed.

Lemma lstrip_noop (s : str) :
  Forall (fun c => isspace c = false) s -> lstrip s = s.
Proof.
  intros H. destruct H as [| c s' Hc _]; simpl.
  - reflexivity.
  - rewrite Hc. reflexivity.
Qed.

Lemma strip_noop (s : str) :
  Forall (fun c => isspace c = false) s -> strip s = s.
Proof.
  intros H. unfold strip, rstrip.
  rewrite (lstrip_noop s H).
  rewrite lstrip_noop.
  - apply rev_involutive.
  - apply List.Forall_rev. exact H.
Qed.

Lemma re_sub_delete_noise (text : str) :
  re_sub_delete not_digit_dot_comma text = spec_strip_noise text.
Proof.
  unfold re_sub_delete, spec_strip_noise.
  apply List.filter_ext. intros c.
  unfold not_digit_dot_comma, digit_dot_comma.
  apply negb_involutive.
Qed.

Lemma spec_strip_noise_no_space (text : str) :
  Forall (fun c => isspace c = false) (spec_strip_noise text).
Proof.
  apply List.Forall_forall. intros c Hin.
  apply List.filter_In in Hin. destruct Hin as [_ Hk].
  destruct (isspace c) eqn:Hs; [| reflexivity].
  rewrite (isspace_not_digit_dot_comma c Hs) in Hk. discriminate.
Qed.

(** The cleaned string of the source is the text with every character
    other than a digit, ['.'] and [','] deleted: [strip] finds nothing
    to remove. *)
Lemma cleaned_eq (text : str) :
  strip (re_sub_delete not_digit_dot_comma text) = spec_strip_noise text.
Proof.
  rewrite re_sub_delete_noise.
  apply strip_noop, spec_strip_noise_no_space.
Qed.

Lemma spec_strip_noise_idem (text : str) :
  spec_strip_noise (spec_strip_noise text) = spec_strip_noise text.
Proof.
  unfold spec_strip_noise.
  induction text as [| c s IH]; simpl; [reflexivity |].
  destruct (digit_dot_comma c) eqn:Hc; simpl.
  - rewrite Hc, IH. reflexivity.
  - exact IH.
Qed.

Lemma str_in_true (c : char) (s : str) : str_in c s = true <-> In c s.
Proof.
  unfold str_in. rewrite List.existsb_exists. split.
  - intros (x & Hin & Heq). apply N.eqb_eq in Heq. subst. exact Hin.
  - intros Hin. exists c. split; [exact Hin | apply N.eqb_refl].
Qed.

Lemma str_in_false (c : char) (s : str) : str_in c s = false <-> ~ In c s.
Proof.
  rewrite <- str_in_true. destruct (str_in c s); split; intros H;
    try reflexivity; try discriminate; try (intros H'; discriminate).
  exfalso. apply H. reflexivity.
Qed.

Lemma replace_delete (old : char) (s : str) :
  replace old [] s = spec_remove old s.
Proof.
  unfold replace, spec_remove.
  induction s as [| c s IH]; simpl; [reflexivity |].
  rewrite IH. destruct (c =? old); reflexivity.
Qed.

Lemma replace_one (old new : char) (s : str) :
  replace old [new] s = map (fun c => if c =? old then new else c) s.
Proof.
  unfold replace.
  induction s as [| c s IH]; simpl; [reflexivity |].
  rewrite IH. destruct (c =? old); reflexivity.
Qed.

Lemma spec_remove_absent (mark : char) (s : str) :
  ~ In mark s -> spec_remove mark s = s.
Proof.
  unfold spec_remove.
  induction s as [| c s IH]; simpl; intros Hn; [reflexivity |].
  destruct (N.eqb_spec c mark) as [-> | Hne]; simpl.
  - exfalso. apply Hn. left. reflexivity.
  - f_equal. apply IH. intros Hin. apply Hn. right. exact Hin.
Qed.

Lemma spec_to_dot_DOT (s : str) : spec_to_dot DOT s = s.
Proof.
  unfold spec_to_dot.
  induction s as [| c s IH]; simpl; [reflexivity |].
  rewrite IH. destruct (N.eqb_spec c DOT) as [-> | _]; reflexivity.
Qed.

(** *** [rfind] *)

Lemma rfind_from_app (c : char) (s1 s2 : str) (i last : Z) :
  rfind_from c (s1 ++ s2) i last
  = rfind_from c s2 (i + Z.of_nat (length s1))%Z (rfind_from c s1 i last).
Proof.
  revert i last.
  induction s1 as [| x s1 IH]; intros i last; simpl.
  - f_equal. lia.
  - rewrite IH. f_equal. lia.
Qed.

Lemma rfind_from_absent (c : char) (s : str) (i last : Z) :
  ~ In c s -> rfind_from c s i last = last.
Proof.
  revert i last.
  induction s as [| x s IH]; intros i last Hn; simpl; [reflexivity |].
  destruct (N.eqb_spec x c) as [-> | _].
  - exfalso. apply Hn. left. reflexivity.
  - apply IH. intros Hin. apply Hn. right. exact Hin.
Qed.

Lemma rfind_from_lt (c : char) (s : str) (i last : Z) :
  (last < i)%Z -> (rfind_from c s i last < i + Z.of_nat (length s))%Z.
Proof.
  revert i last.
  induction s as [| x s IH]; intros i last Hlt; simpl.
  - lia.
  - destruct (x =? c).
    + specialize (IH (i + 1)%Z i). lia.
    + specialize (IH (i + 1)%Z last). lia.
Qed.

(** The index of the last occurrence. *)
Lemma rfind_last (c : char) (pre suf : str) :
  ~ In c suf -> rfind c (pre ++ c :: suf) = Z.of_nat (length pre).
Proof.
  intros Hn. unfold rfind. rewrite rfind_from_app. simpl.
  rewrite N.eqb_refl. apply rfind_from_absent. exact Hn.
Qed.

Lemma rfind_before (c d : char) (pre suf : str) :
  c <> d -> ~ In c suf ->
  (rfind c (pre ++ d :: suf) < Z.of_nat (length pre))%Z.
Proof.
  intros Hne Hn. unfold rfind. rewrite rfind_from_app. simpl.
  destruct (N.eqb_spec d c) as [-> | _]; [congruence |].
  rewrite (rfind_from_absent c suf _ _ Hn).
  pose proof (rfind_from_lt c pre 0 (-1)) as H. lia.
Qed.

End StringFacts.

(* ===================================================================== *)
(** ** The normalizer *)
(* ===================================================================== *)

Section NormalizeFacts.
Context {U : UnicodeData}.

(** [float] raises nothing but [ValueError]. *)
Lemma py_float_raises (s : str) (e : exn) :
  py_float s = Raise e -> e = ValueError.
Proof.
  unfold py_float.
  destruct (scan_digits s 0 0%nat) as [[ip n1] rest].
  destruct rest as [| c frac].
  - destruct (n1 =? 0)%nat; congruence.
  - destruct (c =? DOT); [| congruence].
    destruct (scan_digits frac ip 0%nat) as [[m n2] rest'].
    destruct rest' as [| c' r]; [| congruence].
    destruct (n1 + n2 =? 0)%nat; congruence.
Qed.

Lemma scan_digits_run (ds rest : str) (acc : N) (n : nat) :
  Forall (fun c => isdecimal c = true) ds ->
  match rest with [] => True | c :: _ => isdecimal c = false end ->
  scan_digits (ds ++ rest) acc n
  = (decimal_value ds acc, (n + length ds)%nat, rest).
Proof.
  intros Hds Hrest. revert acc n.
  induction Hds as [| c ds Hc _ IH]; intros acc n.
  - cbn [app decimal_value fold_left length]. rewrite Nat.add_0_r.
    destruct rest as [| c r]; [reflexivity |].
    cbn [scan_digits]. unfold isdecimal in Hrest.
    destruct (todecimal c); [discriminate | reflexivity].
  - cbn [app scan_digits]. unfold isdecimal in Hc.
    destruct (todecimal c) as [d |] eqn:Hd; [| discriminate].
    rewrite IH. cbn [decimal_value fold_left length]. rewrite Hd.
    change (default 0 (Some d)) with d.
    replace (S n + length ds)%nat with (n + S (length ds))%nat by lia.
    reflexivity.
Qed.

(** [float] on the numerals it accepts: an integer part and a fraction,
    not both empty, around one ['.']; or digits alone. *)
Lemma py_float_numeral (ip fp : str) :
  Forall (fun c => isdecimal c = true) ip ->
  Forall (fun c => isdecimal c = true) fp ->
  (0 < length ip + length fp)%nat ->
  py_float (ip ++ DOT :: fp)
  = Ok (float_of_decimal (decimal_value (ip ++ fp) 0) (length fp)).
Proof.
  intros Hip Hfp Hlen. unfold py_float.
  rewrite (scan_digits_run ip (DOT :: fp) 0 0 Hip) by reflexivity.
  cbn [Nat.add]. rewrite N.eqb_refl.
  rewrite <- (app_nil_r fp) at 1.
  rewrite (scan_digits_run fp [] _ 0 Hfp) by exact I.
  cbn [Nat.add].
  destruct (Nat.eqb_spec (length ip + length fp) 0) as [H0 | _]; [lia |].
  unfold decimal_value. rewrite fold_left_app. reflexivity.
Qed.


Lemma except_ValueError_float (s : str) :
  except_ValueError (bind (py_float s) (fun v => Ok (Some v))) (Ok None)
  = spec_parse s.
Proof.
  unfold spec_parse.
  destruct (py_float s) as [v | e] eqn:Hf; simpl; [reflexivity |].
  rewrite (py_float_raises s e Hf). reflexivity.
Qed.

(** The source's two early returns and its [try] collapse to one test
    on the cleaned string. *)
Lemma normalize_unfold (text : str) :
  normalize_price_to_float text
  = if truthy (spec_strip_noise text)
    then spec_parse (rewrite_separators (spec_strip_noise text))
    else Unparseable.
Proof.
  unfold normalize_price_to_float.
  destruct text as [| c s]; [reflexivity |].
  cbn [truthy negb].
  rewrite cleaned_eq.
  destruct (truthy (spec_strip_noise (c :: s))); cbn [negb].
  - apply except_ValueError_float.
  - reflexivity.
Qed.

Lemma spec_parse_nil : spec_parse [] = Unparseable.
Proof. reflexivity. Qed.

(** The normalizer returns; it never raises. *)
Lemma normalize_returns (text : str) :
  exists r : option float, normalize_price_to_float text = Ok r.
Proof.
  rewrite normalize_unfold.
  destruct (truthy (spec_strip_noise text)).
  - unfold spec_parse. destruct (py_float _); eexists; reflexivity.
  - exists None. reflexivity.
Qed.

(** What reaches [float] is made of decimal digits and ['.'] only. *)
Lemma float_argument_alphabet (text : str) :
  Forall (fun c => isdecimal c = true \/ c = DOT)
    (rewrite_separators (strip (re_sub_delete not_digit_dot_comma text))).
Proof.
  rewrite cleaned_eq.
  set (c := spec_strip_noise text).
  assert (Hc : Forall (fun x => isdecimal x = true \/ x = DOT \/ x = COMMA) c).
  { apply List.Forall_forall. intros x Hin.
    apply List.filter_In in Hin. destruct Hin as [_ Hk].
    unfold digit_dot_comma in Hk.
    apply orb_true_iff in Hk. destruct Hk as [Hk | Hk].
    - apply orb_true_iff in Hk. destruct Hk as [Hk | Hk].
      + left. exact Hk.
      + right. left. apply N.eqb_eq. exact Hk.
    - right. right. apply N.eqb_eq. exact Hk. }
  assert (Hcd : Forall (fun x => isdecimal x = true \/ x = DOT)
                  (replace COMMA [DOT] (replace DOT [] c))).
  { rewrite replace_delete, replace_one.
    apply List.Forall_forall. intros x Hin.
    apply List.in_map_iff in Hin. destruct Hin as (y & Hy & Hin).
    apply List.filter_In in Hin. destruct Hin as [Hin _].
    rewrite List.Forall_forall in Hc. specialize (Hc y Hin).
    destruct (N.eqb_spec y COMMA) as [-> | Hne].
    - right. symmetry. exact Hy.
    - subst x. destruct Hc as [Hd | [Hd | Hd]]; [left | right | ]; easy. }
  unfold rewrite_separators.
  destruct (str_in DOT c && str_in COMMA c).
  - destruct (rfind COMMA c >? rfind DOT c)%Z; [exact Hcd |].
    rewrite replace_delete.
    apply List.Forall_forall. intros x Hin.
    apply List.filter_In in Hin. destruct Hin as [Hin Hx].
    rewrite List.Forall_forall in Hc. specialize (Hc x Hin).
    destruct Hc as [Hd | [Hd | Hd]]; [left | right | ]; try easy.
    subst x. discriminate.
  - destruct (str_in COMMA c) eqn:Hcomma; [exact Hcd |].
    apply str_in_false in Hcomma.
    apply List.Forall_forall. intros x Hin.
    rewrite List.Forall_forall in Hc. specialize (Hc x Hin).
    destruct Hc as [Hd | [Hd | Hd]]; [left | right | ]; try easy.
    subst x. contradiction.
Qed.

Lemma in_split_last (a : char) (l : str) :
  In a l -> exists p s, l = p ++ a :: s /\ ~ In a s.
Proof.
  induction l as [| x l IH]; intros Hin; [destruct Hin |].
  destruct (In_dec N.eq_dec a l) as [Hl | Hl].
  - destruct (IH Hl) as (p & s & -> & Hs).
    exists (x :: p), s. split; [reflexivity | exact Hs].
  - destruct Hin as [-> | Hin]; [| contradiction].
    exists [], l. split; [reflexivity | exact Hl].
Qed.

(** A string that holds both separators splits at its last separator. *)
Lemma last_separator_exists (c : str) :
  In DOT c -> In COMMA c ->
  exists (dec other : char) (pre suf : str),
    ((dec = COMMA /\ other = DOT) \/ (dec = DOT /\ other = COMMA))
    /\ c = pre ++ dec :: suf
    /\ ~ In dec suf /\ ~ In other suf /\ In other pre.
Proof.
  induction c as [| x c IH]; intros Hdot Hcomma; [destruct Hdot |].
  destruct (In_dec N.eq_dec DOT c) as [Hd | Hd];
    destruct (In_dec N.eq_dec COMMA c) as [Hc | Hc].
  - destruct (IH Hd Hc) as (dec & other & pre & suf & Hp & -> & H1 & H2 & H3).
    exists dec, other, (x :: pre), suf.
    repeat split; try assumption. right. exact H3.
  - destruct Hcomma as [-> | Hcomma]; [| contradiction].
    destruct (in_split_last DOT c Hd) as (p & s & -> & Hs).
    exists DOT, COMMA, (COMMA :: p), s.
    repeat split; try assumption.
    + right. split; reflexivity.
    + intros Hin. apply Hc. apply in_or_app. right. right. exact Hin.
    + left. reflexivity.
  - destruct Hdot as [-> | Hdot]; [| contradiction].
    destruct (in_split_last COMMA c Hc) as (p & s & -> & Hs).
    exists COMMA, DOT, (DOT :: p), s.
    repeat split; try assumption.
    + left. split; reflexivity.
    + intros Hin. apply Hd. apply in_or_app. right. right. exact Hin.
    + left. reflexivity.
  - destruct Hdot as [-> | Hdot]; [| contradiction].
    destruct Hcomma as [Hx | Hcomma]; [discriminate Hx | contradiction].
Qed.

(** The rewriting, when the last separator is known. *)
Lemma rewrite_separators_both (dec other : char) (pre suf : str) :
  (dec = COMMA /\ other = DOT) \/ (dec = DOT /\ other = COMMA) ->
  ~ In dec suf -> ~ In other suf -> In other pre ->
  rewrite_separators (pre ++ dec :: suf)
  = spec_to_dot dec (spec_remove other (pre ++ dec :: suf)).
Proof.
  intros Hpair Hdec Hother Hpre.
  set (c := pre ++ dec :: suf).
  assert (Hin_dec : In dec c).
  { apply in_or_app. right. left. reflexivity. }
  assert (Hin_other : In other c).
  { apply in_or_app. left. exact Hpre. }
  assert (Hne : other <> dec).
  { destruct Hpair as [[-> ->] | [-> ->]]; discriminate. }
  pose proof (rfind_last dec pre suf Hdec) as Hlast.
  pose proof (rfind_before other dec pre suf Hne Hother) as Hbefore.
  fold c in Hlast, Hbefore.
  unfold rewrite_separators.
  destruct Hpair as [[-> ->] | [-> ->]].
  - apply str_in_true in Hin_dec, Hin_other.
    rewrite Hin_dec, Hin_other. cbn [andb].
    replace (rfind COMMA c >? rfind DOT c)%Z with true
      by (symmetry; apply Z.gtb_lt; lia).
    rewrite replace_delete, replace_one. reflexivity.
  - apply str_in_true in Hin_dec, Hin_other.
    rewrite Hin_dec, Hin_other. cbn [andb].
    replace (rfind COMMA c >? rfind DOT c)%Z with false
      by (symmetry; rewrite Z.gtb_ltb; apply Z.ltb_ge; lia).
    rewrite replace_delete, spec_to_dot_DOT. reflexivity.
Qed.

Lemma rewrite_separators_comma_only (c : str) :
  In COMMA c -> ~ In DOT c ->
  rewrite_separators c = spec_to_dot COMMA c.
Proof.
  intros Hcomma Hdot. unfold rewrite_separators.
  apply str_in_true in Hcomma. rewrite Hcomma.
  pose proof Hdot as Hdot'. apply str_in_false in Hdot'. rewrite Hdot'.
  cbn [andb].
  rewrite replace_delete, replace_one, (spec_remove_absent DOT c Hdot).
  reflexivity.
Qed.

Lemma rewrite_separators_no_comma (c : str) :
  ~ In COMMA c -> rewrite_separators c = c.
Proof.
  intros Hcomma. unfold rewrite_separators.
  apply str_in_false in Hcomma. rewrite Hcomma.
  rewrite andb_false_r. reflexivity.
Qed.

(** *** The value of a well-formed price *)

Lemma isdecimal_not_separator (c : char) :
  isdecimal c = true -> c <> DOT /\ c <> COMMA.
Proof.
  intros H. split; intros ->; discriminate H.
Qed.

Lemma spec_strip_noise_id (s : str) :
  Forall (fun c => isdecimal c = true \/ c = DOT \/ c = COMMA) s ->
  spec_strip_noise s = s.
Proof.
  unfold spec_strip_noise.
  induction 1 as [| c s Hc _ IH]; simpl; [reflexivity |].
  rewrite IH. unfold digit_dot_comma.
  destruct Hc as [-> | [-> | ->]];
    rewrite ?N.eqb_refl, ?orb_true_r; reflexivity.
Qed.

Lemma spec_remove_digits (mark : char) (s : str) :
  mark = DOT \/ mark = COMMA ->
  Forall (fun c => isdecimal c = true) s -> spec_remove mark s = s.
Proof.
  intros Hm Hs. apply spec_remove_absent. intros Hin.
  rewrite List.Forall_forall in Hs.
  destruct (isdecimal_not_separator mark (Hs mark Hin)) as [H1 H2].
  destruct Hm; contradiction.
Qed.

Lemma spec_remove_only_digits (mark : char) (s : str) :
  Forall (fun c => isdecimal c = true \/ c = mark) s ->
  Forall (fun c => isdecimal c = true) (spec_remove mark s).
Proof.
  intros Hs. apply List.Forall_forall. intros c Hin.
  apply List.filter_In in Hin. destruct Hin as [Hin Hc].
  rewrite List.Forall_forall in Hs.
  destruct (Hs c Hin) as [Hd | ->]; [exact Hd |].
  rewrite N.eqb_refl in Hc. discriminate Hc.
Qed.

Lemma spec_to_dot_digits (mark : char) (s : str) :
  mark = DOT \/ mark = COMMA ->
  Forall (fun c => isdecimal c = true) s -> spec_to_dot mark s = s.
Proof.
  intros Hm. unfold spec_to_dot.
  induction 1 as [| c s Hc _ IH]; simpl; [reflexivity |].
  rewrite IH. destruct (N.eqb_spec c mark) as [-> | _]; [| reflexivity].
  destruct (isdecimal_not_separator mark Hc) as [H1 H2].
  destruct Hm; contradiction.
Qed.

Lemma spec_remove_split (mark c : char) (pre suf : str) :
  c <> mark ->
  spec_remove mark (pre ++ c :: suf)
  = spec_remove mark pre ++ c :: spec_remove mark suf.
Proof.
  intros Hne. unfold spec_remove. rewrite List.filter_app. simpl.
  destruct (N.eqb_spec c mark) as [He | _]; [contradiction | reflexivity].
Qed.

Lemma spec_to_dot_split (mark : char) (pre suf : str) :
  spec_to_dot mark (pre ++ mark :: suf)
  = spec_to_dot mark pre ++ DOT :: spec_to_dot mark suf.
Proof.
  unfold spec_to_dot. rewrite List.map_app. simpl.
  rewrite N.eqb_refl. reflexivity.
Qed.

(** Whatever the case, the rewriting removes the separator that is not
    last and writes the last one ['.']. *)
Lemma rewrite_separators_last (dec other : char) (pre suf : str) :
  (dec = COMMA /\ other = DOT) \/ (dec = DOT /\ other = COMMA) ->
  ~ In dec suf -> ~ In other suf ->
  rewrite_separators (pre ++ dec :: suf)
  = spec_to_dot dec (spec_remove other (pre ++ dec :: suf)).
Proof.
  intros Hpair Hdec Hother.
  destruct (In_dec N.eq_dec other pre) as [Hpre | Hpre].
  - apply rewrite_separators_both; assumption.
  - assert (Hno : ~ In other (pre ++ dec :: suf)).
    { intros Hin. apply in_app_or in Hin.
      destruct Hin as [Hin | [Hin | Hin]]; try contradiction.
      destruct Hpair as [[-> ->] | [-> ->]]; discriminate Hin. }
    rewrite (spec_remove_absent other _ Hno).
    destruct Hpair as [[-> ->] | [-> ->]].
    + apply rewrite_separators_comma_only; [| exact Hno].
      apply in_or_app. right. left. reflexivity.
    + rewrite spec_to_dot_DOT. apply rewrite_separators_no_comma. exact Hno.
Qed.

(** A price written with one decimal mark and any number of grouping
    marks before it: the digits before the mark, with the grouping marks
    dropped, are the integer part, the digits after it the fraction. *)
Lemma normalize_grouped (dec other : char) (pre suf : str) :
  (dec = COMMA /\ other = DOT) \/ (dec = DOT /\ other = COMMA) ->
  Forall (fun c => isdecimal c = true \/ c = other) pre ->
  Forall (fun c => isdecimal c = true) suf ->
  (0 < length (spec_remove other pre) + length suf)%nat ->
  normalize_price_to_float (pre ++ dec :: suf)
  = Ok (Some (float_of_decimal
                (decimal_value (spec_remove other pre ++ suf) 0)
                (length suf))).
Proof.
  intros Hpair Hpre Hsuf Hlen.
  assert (Hsep : (dec = DOT \/ dec = COMMA) /\ (other = DOT \/ other = COMMA)
                 /\ dec <> other).
  { destruct Hpair as [[-> ->] | [-> ->]]; repeat split; auto; discriminate. }
  destruct Hsep as (Hd & Ho & Hne).
  assert (Hnot : forall m, m = DOT \/ m = COMMA -> ~ In m suf).
  { intros m Hm Hin. rewrite List.Forall_forall in Hsuf.
    destruct (isdecimal_not_separator m (Hsuf m Hin)) as [H1 H2].
    destruct Hm; contradiction. }
  rewrite normalize_unfold, spec_strip_noise_id.
  - replace (truthy (pre ++ dec :: suf)) with true
      by (destruct pre; reflexivity).
    rewrite (rewrite_separators_last dec other pre suf Hpair
               (Hnot dec Hd) (Hnot other Ho)).
    rewrite (spec_remove_split other dec pre suf Hne).
    rewrite (spec_remove_digits other suf Ho Hsuf).
    pose proof (spec_remove_only_digits other pre Hpre) as Hip.
    rewrite spec_to_dot_split.
    rewrite (spec_to_dot_digits dec _ Hd Hip),
      (spec_to_dot_digits dec suf Hd Hsuf).
    unfold spec_parse.
    rewrite (py_float_numeral _ suf Hip Hsuf Hlen). reflexivity.
  - apply Forall_app. split.
    + apply List.Forall_forall. intros c Hin.
      rewrite List.Forall_forall in Hpre.
      destruct (Hpre c Hin) as [H | ->]; [left; exact H | right].
      destruct Ho as [-> | ->]; auto.
    + constructor.
      * right. destruct Hd as [-> | ->]; auto.
      * apply List.Forall_forall. intros c Hin.
        rewrite List.Forall_forall in Hsuf. left. exact (Hsuf c Hin).
Qed.

(** The limitation the heuristic accepts: a comma that groups thousands,
    with no decimal part after it, is read as a decimal mark, and so is
    a lone grouping dot. *)
Lemma normalize_grouping_misread :
  normalize_price_to_float (py "1,234") = Ok (Some (float_of_decimal 1234 3))
  /\ normalize_price_to_float (py "1.234") = Ok (Some (float_of_decimal 1234 3)).
Proof.
  split; vm_compute; reflexivity.
Qed.

(** C1.  With [c] the text after step 1: when both ['.'] and [','] are
    in [c], [c] splits at its last separator, and the one whose last
    occurrence is farther right (the one nothing but digits follows) is
    the decimal mark, every occurrence of the other is removed, the
    decimal mark is written ['.'], and the result is parsed; when only [','] is
    in [c] it is written ['.'] and the result is parsed; when [','] is
    not in [c] (only ['.'], or neither), [c] is parsed as it is. *)
Theorem normalize_separator_policy (text : str) :
  let c := spec_strip_noise text in
  (In DOT c -> In COMMA c ->
   exists (dec other : char) (pre suf : str),
     ((dec = COMMA /\ other = DOT) \/ (dec = DOT /\ other = COMMA))
     /\ c = pre ++ dec :: suf
     /\ ~ In dec suf /\ ~ In other suf /\ In other pre)
  /\ (forall (dec other : char) (pre suf : str),
      (dec = COMMA /\ other = DOT) \/ (dec = DOT /\ other = COMMA) ->
      c = pre ++ dec :: suf ->
      ~ In dec suf -> ~ In other suf -> In other pre ->
      normalize_price_to_float text
      = spec_parse (spec_to_dot dec (spec_remove other c)))
  /\ (In COMMA c -> ~ In DOT c ->
      normalize_price_to_float text = spec_parse (spec_to_dot COMMA c))
  /\ (~ In COMMA c ->
      normalize_price_to_float text = spec_parse c).
Proof.
  intros c. subst c. rewrite normalize_unfold.
  split; [apply last_separator_exists |].
  split; [| split].
  - intros dec other pre suf Hpair Hc Hdec Hother Hpre.
    rewrite Hc.
    replace (truthy (pre ++ dec :: suf)) with true
      by (destruct pre; reflexivity).
    rewrite (rewrite_separators_both dec other pre suf Hpair Hdec Hother Hpre).
    reflexivity.
  - intros Hcomma Hdot.
    rewrite (rewrite_separators_comma_only _ Hcomma Hdot).
    destruct (spec_strip_noise text); [destruct Hcomma | reflexivity].
  - intros Hcomma.
    rewrite (rewrite_separators_no_comma _ Hcomma).
    destruct (spec_strip_noise text); reflexivity.
Qed.

(** C5.  When step 1 leaves nothing, the result is Unparseable; the
    empty string and ["abc"] are such inputs. *)
Theorem normalize_empty_remainder :
  (forall text : str,
      spec_strip_noise text = [] ->
      normalize_price_to_float text = Unparseable)
  /\ normalize_price_to_float (py "") = Unparseable
  /\ normalize_price_to_float (py "abc") = Unparseable.
Proof.
  split; [| split].
  - intros text Hc. rewrite normalize_unfold, Hc. reflexivity.
  - reflexivity.
  - vm_compute. reflexivity.
Qed.

(** C9.  The normalizer returns on every input, a number or [None], and
    raises nothing; ["1.2.3"] and ["."] make [float] raise [ValueError],
    which is caught and turned into [None]. *)
Theorem normalize_total :
  (forall text : str,
      exists r : option float, normalize_price_to_float text = Ok r)
  /\ py_float (py "1.2.3") = Raise ValueError
  /\ normalize_price_to_float (py "1.2.3") = Unparseable
  /\ py_float (py ".") = Raise ValueError
  /\ normalize_price_to_float (py ".") = Unparseable.
Proof.
  split; [exact normalize_returns |].
  repeat split; vm_compute; reflexivity.
Qed.

(** C10.  The result depends only on the digits, ['.'] and [','] of the
    input: deleting every other character changes nothing. *)
Theorem normalize_ignores_noise (text : str) :
  normalize_price_to_float text
  = normalize_price_to_float (spec_strip_noise text).
Proof.
  rewrite (normalize_unfold text), (normalize_unfold (spec_strip_noise text)).
  rewrite spec_strip_noise_idem. reflexivity.
Qed.

(** C3.  The four sample prices: each result is the binary64 value
    nearest to the decimal, which is what the literals [1234.56] and
    [49.90] denote. *)
Theorem normalize_samples :
  normalize_price_to_float (py "1.234,56 TL")
    = Ok (Some (float_of_decimal 123456 2))
  /\ normalize_price_to_float (py "1,234.56")
    = Ok (Some (float_of_decimal 123456 2))
  /\ normalize_price_to_float (py "49,90")
    = Ok (Some (float_of_decimal 4990 2))
  /\ normalize_price_to_float (py "$49.90")
    = Ok (Some (float_of_decimal 4990 2))
  /\ float_of_decimal 123456 2 = S754_finite false 5429652300748554 (-42)
  /\ float_of_decimal 4990 2 = S754_finite false 7022800668930867 (-47)
  /\ nearest_binary64 123456 2 (float_of_decimal 123456 2)
  /\ nearest_binary64 4990 2 (float_of_decimal 4990 2).
Proof.
  repeat split; vm_compute; try reflexivity; intros H; discriminate H.
Qed.

End NormalizeFacts.

(* ===================================================================== *)
(** ** The locator chain and the extraction *)
(* ===================================================================== *)

Section FetchFacts.
Context {U : UnicodeData}.

Lemma first_price_text_cons (soup : Soup) (sel : string) (rest : list string) :
  first_price_text soup (sel :: rest)
  = match rule_text soup sel with
    | Some t => if truthy t then Some t else first_price_text soup rest
    | None => first_price_text soup rest
    end.
Proof.
  unfold rule_text. simpl. destruct (select_one soup sel); reflexivity.
Qed.

Lemma rule_fails_skip (soup : Soup) (sel : string) (rest : list string) :
  rule_fails soup sel ->
  first_price_text soup (sel :: rest) = first_price_text soup rest.
Proof.
  intros [H | H]; rewrite first_price_text_cons, H; reflexivity.
Qed.

Lemma truthy_true (t : str) : truthy t = true <-> t <> [].
Proof.
  destruct t; simpl; split; congruence.
Qed.

(** What the loop leaves in [price_text] is never the empty string. *)
Lemma first_price_text_truthy (soup : Soup) (rules : list string) (t : str) :
  first_price_text soup rules = Some t -> truthy t = true.
Proof.
  induction rules as [| sel rest IH]; [discriminate |].
  rewrite first_price_text_cons.
  destruct (rule_text soup sel) as [t' |]; [| exact IH].
  destruct (truthy t') eqn:Ht; [| exact IH].
  intros [= <-]. exact Ht.
Qed.

Lemma first_price_text_first (soup : Soup) (pre post : list string)
    (sel : string) (t : str) :
  Forall (rule_fails soup) pre ->
  rule_text soup sel = Some t -> t <> [] ->
  first_price_text soup (pre ++ sel :: post) = Some t.
Proof.
  intros Hpre Hsel Ht.
  induction Hpre as [| r pre Hr _ IH]; simpl app.
  - rewrite first_price_text_cons, Hsel.
    apply truthy_true in Ht. rewrite Ht. reflexivity.
  - rewrite (rule_fails_skip soup r _ Hr). exact IH.
Qed.

Lemma first_price_text_none (soup : Soup) (rules : list string) :
  first_price_text soup rules = None <-> Forall (rule_fails soup) rules.
Proof.
  induction rules as [| sel rest IH].
  - split; [constructor | reflexivity].
  - rewrite first_price_text_cons. split.
    + destruct (rule_text soup sel) as [t |] eqn:Hsel.
      * destruct t as [| c t]; cbn [truthy]; [| discriminate].
        intros H. constructor; [right; exact Hsel | apply IH; exact H].
      * intros H. constructor; [left; exact Hsel | apply IH; exact H].
    + intros H. inversion H as [| ? ? Hr Hrest]; subst.
      apply IH in Hrest.
      destruct Hr as [-> | ->]; exact Hrest.
Qed.

(** C2.  On every document and every list of rules, the chain returns
    the text of the first rule that yields an element with non-empty
    text, whatever the rules after it yield, and finds nothing exactly
    when every rule yields no element or empty text. *)
Theorem locator_first_match (soup : Soup) (rules : list string) :
  (forall (pre post : list string) (sel : string) (t : str),
      rules = pre ++ sel :: post ->
      Forall (rule_fails soup) pre ->
      rule_text soup sel = Some t -> t <> [] ->
      first_price_text soup rules = Some t)
  /\ (first_price_text soup rules = None
      <-> Forall (rule_fails soup) rules).
Proof.
  split.
  - intros pre post sel t -> Hpre Hsel Ht.
    apply first_price_text_first; assumption.
  - apply first_price_text_none.
Qed.

(** The title lookup is not that chain: its two selectors are joined by
    [or], so the first element found is taken even when its text is
    empty. *)
Lemma title_first_element_wins :
  forall url : str,
  exists obs : observation,
    fetch_amazon_price url page_two_titles = Ok obs /\ obs_title obs = [].
Proof.
  intros url. eexists. split; vm_compute; reflexivity.
Qed.

(** The three outcomes of [fetch_amazon_price], by the price text found
    and its normalization. *)
Lemma fetch_not_found (url : str) (soup : Soup) :
  first_price_text soup candidates = None ->
  fetch_amazon_price url soup = Raise PriceNotFound.
Proof.
  intros H. unfold fetch_amazon_price. rewrite H. reflexivity.
Qed.

Lemma fetch_unparseable (url : str) (soup : Soup) (t : str) :
  first_price_text soup candidates = Some t ->
  normalize_price_to_float t = Unparseable ->
  fetch_amazon_price url soup = Raise PriceUnparseable.
Proof.
  intros H Hn. unfold fetch_amazon_price. rewrite H.
  cbn [truthy_opt]. rewrite (first_price_text_truthy _ _ _ H).
  cbn [negb]. change (default [] (Some t)) with t. rewrite Hn. reflexivity.
Qed.

Lemma fetch_ok (url : str) (soup : Soup) (t : str) (v : float) :
  first_price_text soup candidates = Some t ->
  normalize_price_to_float t = Ok (Some v) ->
  exists title : str,
    fetch_amazon_price url soup
    = Ok {| obs_url := url; obs_title := title; obs_price := Some v;
            obs_price_text := t;
            obs_currency_hint := currency_hint_of t |}
    /\ (Forall (rule_fails soup) title_rules -> title = []).
Proof.
  intros H Hn. unfold fetch_amazon_price. rewrite H.
  cbn [truthy_opt]. rewrite (first_price_text_truthy _ _ _ H).
  cbn [negb]. change (default [] (Some t)) with t. rewrite Hn. cbn [bind].
  eexists. split; [reflexivity |].
  intros Ht. unfold title_rules in Ht.
  inversion Ht as [| ? ? H1 Ht']; subst.
  inversion Ht' as [| ? ? H2 _]; subst.
  unfold rule_fails, rule_text in H1, H2. unfold or_else.
  destruct (select_one soup "#productTitle") as [el1 |].
  - destruct H1 as [H1 | H1]; congruence.
  - destruct (select_one soup "h1#title") as [el2 |]; [| reflexivity].
    destruct H2 as [H2 | H2]; congruence.
Qed.

(** The outcome is one of the three. *)
Lemma fetch_cases (url : str) (soup : Soup) :
  (first_price_text soup candidates = None
   /\ fetch_amazon_price url soup = Raise PriceNotFound)
  \/ (exists t, first_price_text soup candidates = Some t
        /\ normalize_price_to_float t = Unparseable
        /\ fetch_amazon_price url soup = Raise PriceUnparseable)
  \/ (exists t v title,
        first_price_text soup candidates = Some t
        /\ normalize_price_to_float t = Ok (Some v)
        /\ fetch_amazon_price url soup
           = Ok {| obs_url := url; obs_title := title; obs_price := Some v;
                   obs_price_text := t;
                   obs_currency_hint := currency_hint_of t |}).
Proof.
  destruct (first_price_text soup candidates) as [t |] eqn:H.
  - right.
    destruct (normalize_returns t) as [[v |] Hn].
    + right. destruct (fetch_ok url soup t v H Hn) as (title & Hf & _).
      exists t, v, title. auto.
    + left. exists t. split; [reflexivity |]. split; [exact Hn |].
      apply (fetch_unparseable url soup t H Hn).
  - left. split; [reflexivity | apply fetch_not_found; exact H].
Qed.

Lemma PriceNotFound_neq_PriceUnparseable : PriceNotFound <> PriceUnparseable.
Proof. discriminate. Qed.

(** C4.  The extraction fails with [PriceNotFound] exactly when the
    price chain finds nothing, with [PriceUnparseable] exactly when the
    normalizer returns Unparseable on the text found, in no other way,
    and the two failures differ; when it succeeds, the price is present
    and is the normalized price text. *)
Theorem fetch_failures (url : str) (soup : Soup) :
  (fetch_amazon_price url soup = Raise PriceNotFound
   <-> first_price_text soup candidates = None)
  /\ (fetch_amazon_price url soup = Raise PriceUnparseable
      <-> exists t, first_price_text soup candidates = Some t
                    /\ normalize_price_to_float t = Unparseable)
  /\ (forall e, fetch_amazon_price url soup = Raise e ->
                e = PriceNotFound \/ e = PriceUnparseable)
  /\ PriceNotFound <> PriceUnparseable
  /\ (forall obs, fetch_amazon_price url soup = Ok obs ->
        exists v, obs_price obs = Some v
                  /\ first_price_text soup candidates
                     = Some (obs_price_text obs)
                  /\ normalize_price_to_float (obs_price_text obs)
                     = Ok (Some v)
                  /\ obs_url obs = url
                  /\ obs_currency_hint obs
                     = currency_hint_of (obs_price_text obs)).
Proof.
  pose proof PriceNotFound_neq_PriceUnparseable as Hne.
  destruct (fetch_cases url soup)
    as [[H Hf] | [(t & H & Hn & Hf) | (t & v & title & H & Hn & Hf)]];
    rewrite Hf, H.
  - repeat split; try congruence.
    + intros (t & Ht & _). discriminate.
    + intros e [= <-]. left. reflexivity.
  - repeat split; try congruence.
    + exists t. split; [reflexivity | exact Hn].
    + intros e [= <-]. right. reflexivity.
  - repeat split; try congruence.
    + intros (t' & [= <-] & Hn'). unfold Unparseable in Hn'. congruence.
    + intros obs [= <-]. exists v. cbn. repeat split; assumption.
Qed.

End FetchFacts.

(* ===================================================================== *)
(** ** The currency hint and the optional title *)
(* ===================================================================== *)

Section HintFacts.
Context {U : UnicodeData}.

Lemma spec_hint_no_space (text : str) :
  Forall (fun c => isspace c = false) (spec_hint text).
Proof.
  apply List.Forall_forall. intros c Hin.
  apply List.filter_In in Hin. destruct Hin as [_ Hk].
  apply andb_true_iff in Hk. destruct Hk as [_ Hk].
  apply negb_true_iff. exact Hk.
Qed.

Lemma re_sub_delete_hint (text : str) :
  re_sub_delete digit_dot_comma_space text = spec_hint text.
Proof.
  unfold re_sub_delete, spec_hint.
  apply List.filter_ext. intros c. unfold digit_dot_comma_space.
  rewrite !negb_orb. reflexivity.
Qed.

Lemma currency_hint_of_spec (text : str) :
  currency_hint_of text = spec_hint text.
Proof.
  unfold currency_hint_of. rewrite re_sub_delete_hint.
  apply strip_noop, spec_hint_no_space.
Qed.

(** C6.  The hint is the price text with every digit, ['.'], [','] and
    white-space character removed, which leaves nothing to trim; the
    two sample hints; and an empty hint does not make the extraction
    fail. *)
Theorem currency_hint_removes (text : str) :
  currency_hint_of text = spec_hint text
  /\ strip (currency_hint_of text) = currency_hint_of text
  /\ currency_hint_of (py "$49.90") = py "$"
  /\ currency_hint_of (py "1.234,56 TL") = py "TL"
  /\ currency_hint_of (py "49.90") = []
  /\ (forall url : str,
        fetch_amazon_price url page_bare_price
        = Ok {| obs_url := url; obs_title := [];
                obs_price := Some (float_of_decimal 4990 2);
                obs_price_text := py "49.90";
                obs_currency_hint := [] |}).
Proof.
  split; [apply currency_hint_of_spec |].
  split.
  { rewrite currency_hint_of_spec. apply strip_noop, spec_hint_no_space. }
  repeat split; try (vm_compute; reflexivity).
Qed.

(** C7, amended.  When the title selectors yield no element or only
    empty text, and the price chain finds a text that normalizes to a
    number, the extraction succeeds with the empty title. *)
Theorem fetch_title_optional (url : str) (soup : Soup) (t : str) (v : float) :
  Forall (rule_fails soup) title_rules ->
  first_price_text soup candidates = Some t ->
  normalize_price_to_float t = Ok (Some v) ->
  fetch_amazon_price url soup
  = Ok {| obs_url := url; obs_title := []; obs_price := Some v;
          obs_price_text := t;
          obs_currency_hint := currency_hint_of t |}.
Proof.
  intros Htitle Hprice Hnorm.
  destruct (fetch_ok url soup t v Hprice Hnorm) as (title & Hf & Hempty).
  rewrite Hf, (Hempty Htitle). reflexivity.
Qed.

End HintFacts.

(* ===================================================================== *)
(** ** The history appender *)
(* ===================================================================== *)

Section HistoryFacts.

Lemma append_existing (now url title : str) (price : float) (raw : str)
    (fs : filesystem) (rows : list row) :
  history fs = Some rows ->
  history (append_history_csv now url title price raw fs)
  = Some (rows ++ [[CStr now; CStr url; CStr title; CFloat price; CStr raw]]).
Proof.
  unfold history, append_history_csv, writerow, open_append,
    os_path_exists, ensure_data_dir, os_makedirs_exist_ok.
  cbn [fs_files fs_dirs]. intros H. rewrite H.
  rewrite bool_decide_eq_true_2 by (eexists; reflexivity).
  cbn [negb fs_files]. rewrite !lookup_insert_eq. reflexivity.
Qed.

Lemma append_creates (now url title : str) (price : float) (raw : str)
    (fs : filesystem) :
  history fs = None ->
  history (append_history_csv now url title price raw fs)
  = Some [header; [CStr now; CStr url; CStr title; CFloat price; CStr raw]].
Proof.
  unfold history, append_history_csv, writerow, open_append,
    os_path_exists, ensure_data_dir, os_makedirs_exist_ok.
  cbn [fs_files fs_dirs]. intros H. rewrite H.
  rewrite bool_decide_eq_false_2 by (intros [x Hx]; discriminate).
  cbn [negb fs_files]. rewrite !lookup_insert_eq. reflexivity.
Qed.

Lemma append_other_files (now url title : str) (price : float) (raw : str)
    (fs : filesystem) (p : string) :
  p <> history_path ->
  fs_files (append_history_csv now url title price raw fs) !! p
  = fs_files fs !! p.
Proof.
  intros Hp.
  unfold append_history_csv, writerow, open_append,
    os_path_exists, ensure_data_dir, os_makedirs_exist_ok.
  cbn [fs_files fs_dirs].
  destruct (negb _); cbn [fs_files];
    rewrite ?lookup_insert_ne by congruence; reflexivity.
Qed.

Lemma save_all_existing (qs : list save_request) (fs : filesystem)
    (rows : list row) :
  history fs = Some rows ->
  history (save_all qs fs) = Some (rows ++ map data_row qs).
Proof.
  revert fs rows.
  induction qs as [| q qs IH]; intros fs rows H; simpl.
  - rewrite app_nil_r. exact H.
  - unfold save_all in IH. rewrite (IH _ (rows ++ [data_row q])).
    + rewrite <- app_assoc. reflexivity.
    + apply append_existing. exact H.
Qed.

Lemma data_row_not_header (q : save_request) : data_row q <> header.
Proof. discriminate. Qed.

(** C8.  A call on an existing file appends the one row (timestamp, url,
    title, price, raw price text) after the rows already there and
    writes no header; a call that finds no file creates it with the
    header followed by that row; so after any run of calls that started
    without the file, the file is the header, once, followed by one row
    per call in call order.  No other file changes. *)
Theorem append_history_rows :
  (forall now url title price raw fs rows,
      history fs = Some rows ->
      history (append_history_csv now url title price raw fs)
      = Some (rows ++
              [[CStr now; CStr url; CStr title; CFloat price; CStr raw]]))
  /\ (forall now url title price raw fs,
        history fs = None ->
        history (append_history_csv now url title price raw fs)
        = Some [header;
                [CStr now; CStr url; CStr title; CFloat price; CStr raw]])
  /\ (forall q qs fs,
        history fs = None ->
        history (save_all (q :: qs) fs)
        = Some (header :: map data_row (q :: qs))
        /\ Forall (fun r => r <> header) (map data_row (q :: qs)))
  /\ (forall now url title price raw fs p,
        p <> history_path ->
        fs_files (append_history_csv now url title price raw fs) !! p
        = fs_files fs !! p).
Proof.
  split; [| split; [| split]].
  - intros. apply append_existing. assumption.
  - intros. apply append_creates. assumption.
  - intros q qs fs H. split.
    + cbn [save_all fold_left]. fold (save_all qs (save fs q)).
      rewrite (save_all_existing qs _ [header; data_row q]).
      * reflexivity.
      * apply append_creates. exact H.
    + apply List.Forall_forall. intros r Hin.
      apply List.in_map_iff in Hin. destruct Hin as (q' & <- & _).
      apply data_row_not_header.
  - intros. apply append_other_files. assumption.
Qed.

End HistoryFacts.

(* ===================================================================== *)
(** ** Which prices the normalizer reads, and as what *)
(* ===================================================================== *)

Section NumeralFacts.
Context {U : UnicodeData}.

Lemma span_digits (s : str) :
  exists ds rest,
    s = ds ++ rest
    /\ Forall (fun c => isdecimal c = true) ds
    /\ match rest with [] => True | c :: _ => isdecimal c = false end.
Proof.
  induction s as [| c s IH].
  - exists [], []. repeat split. constructor.
  - destruct (isdecimal c) eqn:Hc.
    + destruct IH as (ds & rest & -> & Hds & Hrest).
      exists (c :: ds), rest. repeat split; [constructor |]; assumption.
    + exists [], (c :: s). repeat split; [constructor | exact Hc].
Qed.

Lemma digits_no_DOT (ds : str) :
  Forall (fun c => isdecimal c = true) ds -> ~ In DOT ds.
Proof.
  intros Hds Hin. rewrite List.Forall_forall in Hds.
  destruct (isdecimal_not_separator DOT (Hds DOT Hin)) as [H _].
  apply H. reflexivity.
Qed.

(** [float] accepts nothing but the numerals. *)
Lemma py_float_ok_inv (s : str) (v : float) :
  py_float s = Ok v ->
  exists ip fp,
    Forall (fun c => isdecimal c = true) ip
    /\ Forall (fun c => isdecimal c = true) fp
    /\ (0 < length ip + length fp)%nat
    /\ v = float_of_decimal (decimal_value (ip ++ fp) 0) (length fp)
    /\ (s = ip ++ DOT :: fp \/ (s = ip /\ fp = [])).
Proof.
  destruct (span_digits s) as (ip & rest & -> & Hip & Hrest).
  unfold py_float. rewrite (scan_digits_run ip rest 0 0 Hip Hrest).
  cbn [Nat.add]. destruct rest as [| c frac].
  - destruct (Nat.eqb_spec (length ip) 0) as [_ | Hn]; [discriminate |].
    intros [= <-]. exists ip, []. rewrite !app_nil_r. cbn [length].
    split; [exact Hip |]. split; [constructor |].
    split; [lia |]. split; [reflexivity |].
    right. split; reflexivity.
  - destruct (N.eqb_spec c DOT) as [-> | _]; [| discriminate].
    destruct (span_digits frac) as (fp & rest' & -> & Hfp & Hrest').
    rewrite (scan_digits_run fp rest' _ 0 Hfp Hrest'). cbn [Nat.add].
    destruct rest' as [| c' r]; [| discriminate].
    destruct (Nat.eqb_spec (length ip + length fp) 0) as [_ | Hn];
      [discriminate |].
    intros [= <-]. exists ip, fp. rewrite app_nil_r.
    split; [exact Hip |]. split; [exact Hfp |]. split; [lia |].
    split; [| left; reflexivity].
    unfold decimal_value. rewrite fold_left_app. reflexivity.
Qed.

Lemma split_last_unique (x : char) (a a' b b' : str) :
  a ++ x :: b = a' ++ x :: b' -> ~ In x b -> ~ In x b' ->
  a = a' /\ b = b'.
Proof.
  revert a'. induction a as [| y a IH]; intros a' Heq Hb Hb'.
  - destruct a' as [| y' a'].
    + injection Heq as ->. split; reflexivity.
    + injection Heq as <- ->. exfalso. apply Hb.
      apply in_or_app. right. left. reflexivity.
  - destruct a' as [| y' a'].
    + injection Heq as -> <-. exfalso. apply Hb'.
      apply in_or_app. right. left. reflexivity.
    + injection Heq as <- Heq.
      destruct (IH a' Heq Hb Hb') as [-> ->]. split; reflexivity.
Qed.

Lemma spec_strip_noise_alphabet (text : str) :
  Forall (fun x => isdecimal x = true \/ x = DOT \/ x = COMMA)
    (spec_strip_noise text).
Proof.
  apply List.Forall_forall. intros x Hin.
  apply List.filter_In in Hin. destruct Hin as [_ Hk].
  unfold digit_dot_comma in Hk.
  apply orb_true_iff in Hk. destruct Hk as [Hk | Hk].
  - apply orb_true_iff in Hk. destruct Hk as [Hk | Hk].
    + left. exact Hk.
    + right. left. apply N.eqb_eq. exact Hk.
  - right. right. apply N.eqb_eq. exact Hk.
Qed.

(** The cleaned text around its last separator: only digits follow it,
    and what reaches [float] is the part before it, without the other
    separator and with this one written ['.'], then ['.'], then those
    digits. *)
Lemma normalize_at_last_separator (text : str) (dec other : char)
    (pre suf : str) :
  (dec = COMMA /\ other = DOT) \/ (dec = DOT /\ other = COMMA) ->
  spec_strip_noise text = pre ++ dec :: suf ->
  ~ In dec suf -> ~ In other suf ->
  Forall (fun c => isdecimal c = true) suf
  /\ Forall (fun c => isdecimal c = true \/ c = dec \/ c = other) pre
  /\ normalize_price_to_float text
     = spec_parse (spec_to_dot dec (spec_remove other pre) ++ DOT :: suf).
Proof.
  intros Hpair Hc Hdec Hother.
  assert (Hsep : (dec = DOT \/ dec = COMMA) /\ (other = DOT \/ other = COMMA)
                 /\ dec <> other).
  { destruct Hpair as [[-> ->] | [-> ->]]; repeat split; auto; discriminate. }
  destruct Hsep as (Hd & Ho & Hne).
  pose proof (spec_strip_noise_alphabet text) as Halpha.
  rewrite Hc in Halpha. apply Forall_app in Halpha.
  destruct Halpha as [Hpre Hsuf']. inversion Hsuf' as [| ? ? _ Hsuf0]; subst.
  assert (Hsuf : Forall (fun c => isdecimal c = true) suf).
  { apply List.Forall_forall. intros c Hin.
    rewrite List.Forall_forall in Hsuf0.
    destruct (Hsuf0 c Hin) as [H | [-> | ->]]; [exact H | |];
      destruct Hpair as [[-> ->] | [-> ->]]; contradiction. }
  split; [exact Hsuf |]. split.
  { apply List.Forall_forall. intros c Hin.
    rewrite List.Forall_forall in Hpre.
    destruct (Hpre c Hin) as [H | [-> | ->]]; [left; exact H | |];
      destruct Hpair as [[-> ->] | [-> ->]]; auto. }
  rewrite normalize_unfold, Hc.
  replace (truthy (pre ++ dec :: suf)) with true
    by (destruct pre; reflexivity).
  rewrite (rewrite_separators_last dec other pre suf Hpair Hdec Hother).
  rewrite (spec_remove_split other dec pre suf Hne).
  rewrite (spec_remove_digits other suf Ho Hsuf).
  rewrite spec_to_dot_split.
  rewrite (spec_to_dot_digits dec suf Hd Hsuf). reflexivity.
Qed.

Lemma spec_to_dot_In_DOT (mark other : char) (pre : str) :
  mark <> other -> In mark pre ->
  In DOT (spec_to_dot mark (spec_remove other pre)).
Proof.
  intros Hne Hin. unfold spec_to_dot. apply List.in_map_iff.
  exists mark. rewrite N.eqb_refl. split; [reflexivity |].
  apply List.filter_In. split; [exact Hin |].
  destruct (N.eqb_spec mark other); [contradiction | reflexivity].
Qed.

Lemma spec_to_dot_digit_from (mark other : char) (pre : str) (x : char) :
  In x (spec_to_dot mark (spec_remove other pre)) ->
  isdecimal x = true -> In x pre.
Proof.
  intros Hin Hx. unfold spec_to_dot in Hin.
  apply List.in_map_iff in Hin. destruct Hin as (y & Hy & Hin).
  apply List.filter_In in Hin. destruct Hin as [Hin _].
  destruct (N.eqb_spec y mark) as [_ | _].
  - subst x. discriminate Hx.
  - subst x. exact Hin.
Qed.

(** A number comes out only if the last separator occurs once and the
    cleaned text holds a digit. *)
Lemma normalize_number_only_if (text : str) (dec other : char)
    (pre suf : str) (v : float) :
  (dec = COMMA /\ other = DOT) \/ (dec = DOT /\ other = COMMA) ->
  spec_strip_noise text = pre ++ dec :: suf ->
  ~ In dec suf -> ~ In other suf ->
  normalize_price_to_float text = Ok (Some v) ->
  ~ In dec pre
  /\ exists d, In d (spec_strip_noise text) /\ isdecimal d = true.
Proof.
  intros Hpair Hc Hdec Hother Hv.
  assert (Hne : dec <> other)
    by (destruct Hpair as [[-> ->] | [-> ->]]; discriminate).
  destruct (normalize_at_last_separator text dec other pre suf
              Hpair Hc Hdec Hother) as (Hsuf & _ & Hn).
  rewrite Hn in Hv. unfold spec_parse in Hv.
  destruct (py_float _) as [v' | e] eqn:Hf; [| discriminate Hv].
  destruct (py_float_ok_inv _ _ Hf) as (ip & fp & Hip & Hfp & Hlen & _ & Hs).
  destruct Hs as [Hs | [Hs _]].
  - apply split_last_unique in Hs;
      [| apply digits_no_DOT; exact Hsuf | apply digits_no_DOT; exact Hfp].
    destruct Hs as [Hx <-]. split.
    + intros Hin. apply (digits_no_DOT ip Hip). rewrite <- Hx.
      apply spec_to_dot_In_DOT; assumption.
    + rewrite Hc. destruct suf as [| d suf'].
      * destruct ip as [| x ip']; [cbn in Hlen; lia |].
        exists x. inversion Hip as [| ? ? Hxd _]; subst. split; [| exact Hxd].
        apply in_or_app. left.
        apply (spec_to_dot_digit_from dec other pre x); [| exact Hxd].
        rewrite Hx. left. reflexivity.
      * exists d. inversion Hsuf as [| ? ? Hdd _]; subst. split; [| exact Hdd].
        apply in_or_app. right. right. left. reflexivity.
  - exfalso. apply (digits_no_DOT ip Hip). rewrite <- Hs.
    apply in_or_app. right. left. reflexivity.
Qed.




(** X2.  A repeated decimal mark is not a number.  When the separator
    that comes last in the cleaned text also occurs before, or when the
    cleaned text holds no digit, the result is [None]: a number grouped
    twice with the same mark and no fraction, such as ["1,234,567"] or
    ["1.234.567"], is not read. *)
Theorem normalize_repeated_mark (text : str) (dec other : char)
    (pre suf : str) :
  (dec = COMMA /\ other = DOT) \/ (dec = DOT /\ other = COMMA) ->
  spec_strip_noise text = pre ++ dec :: suf ->
  ~ In dec suf -> ~ In other suf ->
  In dec pre
  \/ (forall d, In d (spec_strip_noise text) -> isdecimal d = false) ->
  normalize_price_to_float text = Unparseable.
Proof.
  intros Hpair Hc Hdec Hother Hbad.
  destruct (normalize_returns text) as [[v |] Hr]; [| exact Hr].
  exfalso.
  destruct (normalize_number_only_if text dec other pre suf v
              Hpair Hc Hdec Hother Hr) as (Hpre & d & Hd & Hdd).
  destruct Hbad as [Hin | Hnone]; [contradiction |].
  rewrite (Hnone d Hd) in Hdd. discriminate Hdd.
Qed.

End NumeralFacts.

(* ===================================================================== *)
(** ** The sign of a price *)
(* ===================================================================== *)

Section SignFacts.
Context {U : UnicodeData}.

Lemma shr_1_nonneg (mrs : shr_record) :
  (0 <= shr_m mrs)%Z -> (0 <= shr_m (shr_1 mrs))%Z.
Proof.
  destruct mrs as [m r s]. destruct m as [| [p | p |] | p]; simpl; lia.
Qed.

Lemma iter_shr_1_nonneg (p : positive) (mrs : shr_record) :
  (0 <= shr_m mrs)%Z -> (0 <= shr_m (SpecFloat.iter_pos shr_1 p mrs))%Z.
Proof.
  revert mrs. induction p as [p IH | p IH |]; intros mrs H; simpl.
  - apply IH, IH, shr_1_nonneg, H.
  - apply IH, IH, H.
  - apply shr_1_nonneg, H.
Qed.

Lemma shr_fexp_nonneg (m e : Z) (l : location) :
  (0 <= m)%Z -> (0 <= shr_m (fst (shr_fexp prec emax m e l)))%Z.
Proof.
  intros H. unfold shr_fexp, shr.
  assert (H0 : (0 <= shr_m (shr_record_of_loc m l))%Z)
    by (destruct l as [| []]; exact H).
  destruct (_ - e)%Z as [| p | p]; cbn [fst]; try exact H0.
  apply iter_shr_1_nonneg, H0.
Qed.

Lemma round_nearest_even_nonneg (m : Z) (l : location) :
  (0 <= m)%Z -> (0 <= round_nearest_even m l)%Z.
Proof.
  intros H. unfold round_nearest_even.
  destruct l as [| []]; try destruct (Z.even m); lia.
Qed.

Lemma binary_round_aux_nonneg (q e : Z) (l : location) :
  (0 <= q)%Z -> nonnegative (binary_round_aux prec emax false q e l).
Proof.
  intros H. unfold binary_round_aux.
  pose proof (shr_fexp_nonneg q e l H) as H1.
  destruct (shr_fexp prec emax q e l) as [mrs' e'].
  cbn [fst] in H1.
  pose proof (shr_fexp_nonneg _ e' loc_Exact
                (round_nearest_even_nonneg _ (loc_of_shr_record mrs') H1))
    as H2.
  destruct (shr_fexp prec emax _ e' loc_Exact) as [mrs'' e''].
  cbn [fst] in H2.
  destruct (shr_m mrs'') as [| m | m].
  - exact I.
  - destruct (e'' <=? emax - prec)%Z; exact I.
  - lia.
Qed.

(** The conversion of a numeral gives no negative number and no [nan]. *)
Lemma float_of_decimal_nonneg (m : N) (k : nat) :
  nonnegative (float_of_decimal m k).
Proof.
  unfold float_of_decimal. destruct m as [| p]; [exact I |].
  unfold SFdiv_core_binary.
  set (s := (_ - _ - _)%Z).
  set (m' := match s with Zpos _ => Z.shiftl (Zpos p) s | Z0 => Zpos p
                        | Zneg _ => 0%Z end).
  assert (Hm' : (0 <= m')%Z).
  { subst m'. destruct s; try lia. apply Z.shiftl_nonneg. lia. }
  assert (Hq : (0 <= fst (Z.div_eucl m' (10 ^ Z.of_nat k)))%Z).
  { change (fst (Z.div_eucl m' (10 ^ Z.of_nat k)))
      with (m' / 10 ^ Z.of_nat k)%Z.
    apply Z.div_pos; [exact Hm' | apply Z.pow_pos_nonneg; lia]. }
  destruct (Z.div_eucl m' (10 ^ Z.of_nat k)) as [q r].
  apply binary_round_aux_nonneg. exact Hq.
Qed.

(** X3.  A price is never negative.  Whatever the text, a number that
    comes out is [+0.0], positive or [+inf], never negative and never
    [nan]; a minus sign in front of the text is dropped with the rest of
    the noise. *)
Theorem normalize_nonnegative :
  (forall (text : str) (v : float),
      normalize_price_to_float text = Ok (Some v) -> nonnegative v)
  /\ (forall text : str,
        normalize_price_to_float (py "-" ++ text)
        = normalize_price_to_float text).
Proof.
  split.
  - intros text v Hv. rewrite normalize_unfold in Hv.
    destruct (truthy (spec_strip_noise text)); [| discriminate Hv].
    unfold spec_parse in Hv.
    destruct (py_float _) as [v' | e] eqn:Hf; [| discriminate Hv].
    injection Hv as <-.
    destruct (py_float_ok_inv _ _ Hf) as (ip & fp & _ & _ & _ & -> & _).
    apply float_of_decimal_nonneg.
  - intros text. rewrite !normalize_unfold. reflexivity.
Qed.

End SignFacts.

(* ===================================================================== *)
(** ** The text of an element *)
(* ===================================================================== *)

Section TextFacts.
Context {U : UnicodeData}.

Lemma lstrip_split (s : str) :
  exists ws, s = ws ++ lstrip s /\ blank ws.
Proof.
  induction s as [| c s IH].
  - exists []. split; [reflexivity | constructor].
  - simpl. destruct (isspace c) eqn:Hc.
    + destruct IH as (ws & Hs & Hws). exists (c :: ws). split.
      * simpl. f_equal. exact Hs.
      * constructor; assumption.
    + exists []. split; [reflexivity | constructor].
Qed.

Lemma lstrip_head (s r : str) (c : char) :
  lstrip s = c :: r -> isspace c = false.
Proof.
  induction s as [| x s IH]; simpl; [discriminate |].
  destruct (isspace x) eqn:Hx; [exact IH |].
  intros [= <- _]. exact Hx.
Qed.

Lemma lstrip_nil (s : str) : lstrip s = [] <-> blank s.
Proof.
  unfold blank. induction s as [| x s IH]; simpl.
  - split; [constructor | reflexivity].
  - destruct (isspace x) eqn:Hx.
    + rewrite IH. split; intros H.
      * constructor; assumption.
      * inversion H; assumption.
    + split; [discriminate |].
      intros H. inversion H; congruence.
Qed.

Lemma rstrip_prefix (t : str) :
  exists ws, t = rstrip t ++ ws /\ blank ws.
Proof.
  unfold rstrip. destruct (lstrip_split (rev t)) as (ws & Hs & Hws).
  exists (rev ws). split.
  - rewrite <- rev_app_distr, <- Hs, rev_involutive. reflexivity.
  - apply List.Forall_rev. exact Hws.
Qed.

Lemma strip_trimmed (s : str) : trimmed (strip s).
Proof.
  unfold trimmed, strip. split.
  - destruct (rstrip (lstrip s)) as [| c r] eqn:Hr; [exact I |].
    destruct (rstrip_prefix (lstrip s)) as (ws & Ht & _).
    rewrite Hr in Ht. simpl in Ht.
    apply (lstrip_head s _ c Ht).
  - unfold rstrip. rewrite rev_involutive.
    destruct (lstrip (rev (lstrip s))) as [| c r] eqn:Hr; [exact I |].
    apply (lstrip_head _ _ c Hr).
Qed.

Lemma blank_rev (s : str) : blank s -> blank (rev s).
Proof. apply List.Forall_rev. Qed.

Lemma strip_nil (s : str) : strip s = [] <-> blank s.
Proof.
  unfold strip. split.
  - intros H. destruct (rstrip_prefix (lstrip s)) as (ws & Ht & Hws).
    rewrite H in Ht. simpl in Ht.
    destruct (lstrip_split s) as (ws' & Hs & Hws').
    rewrite Hs, Ht. unfold blank in *. apply Forall_app. split; assumption.
  - intros H. apply lstrip_nil in H. rewrite H. reflexivity.
Qed.

Lemma join_nil (sep : str) (parts : list str) :
  Forall (fun p => p <> []) parts ->
  join sep parts = [] -> parts = [].
Proof.
  intros Hparts. destruct Hparts as [| p rest Hp _]; [reflexivity |].
  simpl. destruct rest as [| p' rest'].
  - intros H. contradiction.
  - intros H. apply app_eq_nil in H. destruct H as [H _]. contradiction.
Qed.

Lemma head_app (a b : str) :
  a <> [] ->
  match a ++ b with [] => True | c :: _ => isspace c = false end
  <-> match a with [] => True | c :: _ => isspace c = false end.
Proof.
  destruct a as [| c a]; [congruence |]. reflexivity.
Qed.

Lemma join_trimmed (sep : str) (parts : list str) :
  Forall (fun p => p <> [] /\ trimmed p) parts ->
  trimmed (join sep parts).
Proof.
  induction 1 as [| p rest [Hp Ht] Hrest IH].
  - split; exact I.
  - simpl. destruct rest as [| p' rest']; [exact Ht |].
    set (tail := join sep (p' :: rest')) in *.
    assert (Htail : tail <> []).
    { intros H0. apply join_nil in H0; [discriminate |].
      eapply List.Forall_impl; [| exact Hrest]. intros a [Ha _]. exact Ha. }
    destruct Ht as [Ht1 Ht2]. destruct IH as [IH1 IH2]. split.
    + apply head_app; assumption.
    + rewrite !rev_app_distr, <- app_assoc. apply head_app; [| exact IH2].
      intros H0. apply (f_equal (@rev char)) in H0.
      rewrite rev_involutive in H0. contradiction.
Qed.

Lemma get_text_parts (el : Tag) :
  Forall (fun p => p <> [] /\ trimmed p)
    (List.filter truthy (map strip (tag_strings el))).
Proof.
  apply List.Forall_forall. intros p Hin.
  apply List.filter_In in Hin. destruct Hin as [Hin Hp].
  apply List.in_map_iff in Hin. destruct Hin as (s & <- & _). split.
  - apply truthy_true. exact Hp.
  - apply strip_trimmed.
Qed.

Lemma get_text_trimmed (sep : str) (el : Tag) : trimmed (get_text sep el).
Proof.
  unfold get_text. apply join_trimmed, get_text_parts.
Qed.

Lemma get_text_nil (sep : str) (el : Tag) :
  get_text sep el = [] <-> Forall blank (tag_strings el).
Proof.
  unfold get_text. split.
  - intros H. apply join_nil in H.
    + apply List.Forall_forall. intros s Hin. apply strip_nil.
      destruct (strip s) as [| c r] eqn:Hs; [reflexivity |].
      assert (Hmem : In (c :: r)
                       (List.filter truthy (map strip (tag_strings el)))).
      { apply List.filter_In. split; [| reflexivity].
        apply List.in_map_iff. exists s. split; assumption. }
      rewrite H in Hmem. destruct Hmem.
    + eapply List.Forall_impl; [| apply get_text_parts].
      intros a [Ha _]. exact Ha.
  - intros H. induction H as [| s rest Hs _ IH]; [reflexivity |].
    cbn [map List.filter]. apply strip_nil in Hs. rewrite Hs. exact IH.
Qed.

Lemma first_price_text_source (soup : Soup) (rules : list string) (t : str) :
  first_price_text soup rules = Some t ->
  exists sel el,
    In sel rules /\ select_one soup sel = Some el
    /\ t = get_text [SPACE] el.
Proof.
  induction rules as [| sel rest IH]; [discriminate |].
  cbn [first_price_text].
  destruct (select_one soup sel) as [el |] eqn:Hsel.
  - destruct (truthy (get_text [SPACE] el)) eqn:Ht.
    + intros [= <-]. exists sel, el. split; [left; reflexivity |].
      split; [exact Hsel | reflexivity].
    + intros H. destruct (IH H) as (s & e & Hin & Hs & He).
      exists s, e. split; [right; exact Hin | split; assumption].
  - intros H. destruct (IH H) as (s & e & Hin & Hs & He).
    exists s, e. split; [right; exact Hin | split; assumption].
Qed.

(** X4.  The text taken from an element is trimmed, and is empty exactly
    when every string of the element is white space; so the price text
    of an observation is never empty and neither it nor the title starts
    or ends with white space. *)
Theorem observation_texts_trimmed :
  (forall (sep : str) (el : Tag),
      trimmed (get_text sep el)
      /\ (get_text sep el = [] <-> Forall blank (tag_strings el)))
  /\ (forall (url : str) (soup : Soup) (obs : observation),
        fetch_amazon_price url soup = Ok obs ->
        obs_price_text obs <> []
        /\ trimmed (obs_price_text obs)
        /\ trimmed (obs_title obs)).
Proof.
  split.
  - intros sep el. split; [apply get_text_trimmed | apply get_text_nil].
  - intros url soup obs Hobs.
    destruct (fetch_cases url soup)
      as [[_ Hf] | [(t & _ & _ & Hf) | (t & v & title & H & _ & Hf)]];
      rewrite Hf in Hobs; try discriminate Hobs.
    assert (Htitle : trimmed title).
    { unfold fetch_amazon_price in Hf. rewrite H in Hf.
      cbn [truthy_opt] in Hf. rewrite (first_price_text_truthy _ _ _ H) in Hf.
      cbn [negb] in Hf. change (default [] (Some t)) with t in Hf.
      destruct (normalize_price_to_float t) as [[v' |] | e];
        cbn [bind] in Hf; try discriminate Hf.
      injection Hf as <- _. 
      destruct (or_else _ _); [apply get_text_trimmed | split; exact I]. }
    injection Hobs as <-. cbn.
    split; [apply truthy_true, (first_price_text_truthy _ _ _ H) |].
    split; [| exact Htitle].
    destruct (first_price_text_source _ _ _ H) as (sel & el & _ & _ & ->).
    apply get_text_trimmed.
Qed.

End TextFacts.

(* ===================================================================== *)
(** ** Runs of the history appender *)
(* ===================================================================== *)

Section HistoryRuns.

Lemma save_dirs (fs : filesystem) (q : save_request) :
  fs_dirs (save fs q) = {[ "data"%string ]} ∪ fs_dirs fs.
Proof.
  unfold save, append_history_csv, writerow, open_append, ensure_data_dir,
    os_makedirs_exist_ok.
  destruct (negb _); reflexivity.
Qed.

Lemma save_other_files (fs : filesystem) (q : save_request) (p : string) :
  p <> history_path -> fs_files (save fs q) !! p = fs_files fs !! p.
Proof.
  intros Hp. unfold save. apply append_other_files. exact Hp.
Qed.

Lemma save_all_dirs (qs : list save_request) (fs : filesystem) :
  qs <> [] -> fs_dirs (save_all qs fs) = {[ "data"%string ]} ∪ fs_dirs fs.
Proof.
  revert fs. induction qs as [| q qs IHqs]; intros fs Hne; [congruence |].
  cbn [save_all fold_left]. fold (save_all qs (save fs q)).
  destruct qs as [| q' qs'].
  - cbn [save_all fold_left]. apply save_dirs.
  - rewrite IHqs by discriminate. rewrite save_dirs.
    rewrite (assoc_L (∪)), (idemp_L (∪)). reflexivity.
Qed.

Lemma save_all_other_files (qs : list save_request) (fs : filesystem)
    (p : string) :
  p <> history_path -> fs_files (save_all qs fs) !! p = fs_files fs !! p.
Proof.
  intros Hp. revert fs. induction qs as [| q qs IHqs]; intros fs.
  - reflexivity.
  - cbn [save_all fold_left]. fold (save_all qs (save fs q)).
    rewrite IHqs. apply save_other_files. exact Hp.
Qed.

(** X5.  The history file only grows.  A run of calls on an existing
    file, whatever it holds, leaves its rows in place and adds one row
    per call, in call order, and no header; every call leaves the
    directory [data] in place, removes no directory and touches no other
    file. *)
Theorem history_append_only :
  (forall (qs : list save_request) (fs : filesystem) (rows : list row),
      history fs = Some rows ->
      history (save_all qs fs) = Some (rows ++ map data_row qs))
  /\ (forall (qs : list save_request) (fs : filesystem),
        qs <> [] ->
        ("data"%string ∈ fs_dirs (save_all qs fs))
        /\ fs_dirs fs ⊆ fs_dirs (save_all qs fs))
  /\ (forall (qs : list save_request) (fs : filesystem) (p : string),
        p <> history_path ->
        fs_files (save_all qs fs) !! p = fs_files fs !! p).
Proof.
  split; [exact save_all_existing |]. split.
  - intros qs fs Hne. rewrite (save_all_dirs qs fs Hne). split.
    + apply elem_of_union_l, elem_of_singleton. reflexivity.
    + apply union_subseteq_r.
  - exact save_all_other_files.
Qed.

End HistoryRuns.

(* ===================================================================== *)
(** ** The window *)
(* ===================================================================== *)

Ltac window_simpl :=
  cbn [last_result url_input target_price timeout_input headless_checked
       headless_text fetch_enabled save_enabled title_lbl price_lbl log_box
       set_last_result set_fetch_enabled set_save_enabled set_title_lbl
       set_price_lbl set_headless_text set_url_input set_target_price
       set_timeout_input set_headless_checked log toggle_headless
       show_result show_error fst snd app_window app_fs app_dialogs] in *.

Ltac window_ok_split :=
  unfold window_ok; window_simpl;
  split; [| split; [| split; [| split; [| split]]]].

Section WindowFacts.
Context {U : UnicodeData} {B : Builtins}.

Lemma fetch_ok_inv (url : str) (soup : Soup) (data : observation) :
  fetch_amazon_price url soup = Ok data -> result_ok data.
Proof.
  intros Hdata.
  destruct (fetch_cases url soup)
    as [[_ Hf] | [(t & _ & _ & Hf) | (t & v & title & H & Hn & Hf)]];
    rewrite Hf in Hdata; try discriminate Hdata.
  injection Hdata as <-. exists v. cbn.
  split; [reflexivity |]. split; [| exact Hn].
  apply truthy_true. apply (first_price_text_truthy _ _ _ H).
Qed.

Lemma fetch_price_window_ok (loaded : page_load) (now1 now2 : str)
    (w : window) :
  window_ok w -> window_ok (fst (fetch_price loaded now1 now2 w)).
Proof.
  intros Hw. unfold fetch_price.
  destruct (negb _ || negb _); [exact Hw |].
  destruct Hw as (_ & _ & Hh & Ht & Hto & _).
  destruct loaded as [soup | | msg | msg];
    [destruct (fetch_amazon_price _ soup) as [data | e] eqn:Hf | | |];
    unfold window_ok; window_simpl;
    (split; [reflexivity |]); (split; [reflexivity |]);
    (split; [exact Hh |]); (split; [exact Ht |]); (split; [exact Hto |]);
    intros d Hd; try discriminate Hd.
  injection Hd as <-. apply (fetch_ok_inv _ _ _ Hf).
Qed.

Lemma save_history_window_ok (now1 now2 : str) (w : window)
    (fs : filesystem) :
  window_ok w -> window_ok (fst (fst (save_history now1 now2 w fs))).
Proof.
  intros Hw. unfold save_history.
  destruct (last_result w) as [data |] eqn:Hl; [| exact Hw].
  destruct Hw as (H1 & H2 & H3 & H4 & H5 & H6).
  rewrite Hl in H2.
  window_ok_split; try rewrite Hl; try assumption.
  intros d [= <-]. apply H6. exact Hl.
Qed.

Lemma step_window_ok (a : application) (ev : event) :
  window_ok (app_window a) -> window_ok (app_window (step a ev)).
Proof.
  intros Hw. destruct ev as [text | v | v | | loaded now1 now2 | now1 now2];
    cbn [step].
  - exact Hw.
  - destruct Hw as (H1 & H2 & H3 & H4 & H5 & H6).
    window_ok_split; try assumption. unfold clamp. lia.
  - destruct Hw as (H1 & H2 & H3 & H4 & H5 & H6).
    window_ok_split; try assumption. unfold clamp. lia.
  - destruct Hw as (H1 & H2 & H3 & H4 & H5 & H6).
    window_ok_split; try assumption.
    destruct (headless_checked (app_window a)); reflexivity.
  - destruct (fetch_enabled (app_window a)); [| exact Hw].
    pose proof (fetch_price_window_ok loaded now1 now2 _ Hw) as H.
    destruct (fetch_price loaded now1 now2 (app_window a)) as [w' ds].
    exact H.
  - destruct (save_enabled (app_window a)); [| exact Hw].
    pose proof (save_history_window_ok now1 now2 _ (app_fs a) Hw) as H.
    destruct (save_history now1 now2 (app_window a) (app_fs a))
      as [[w' fs'] ds].
    exact H.
Qed.

Lemma MainWindow_init_ok : window_ok MainWindow_init.
Proof.
  unfold MainWindow_init. window_ok_split; try reflexivity; try lia.
  intros d Hd. discriminate Hd.
Qed.

Lemma run_window_ok (evs : list event) (a : application) :
  window_ok (app_window a) -> window_ok (app_window (run evs a)).
Proof.
  revert a. induction evs as [| ev evs IHevs]; intros a Hw; [exact Hw |].
  cbn [run fold_left]. apply IHevs, step_window_ok, Hw.
Qed.

(** X6.  What holds of the window after any sequence of events, from
    the start: the fetch button is enabled; the save button is enabled
    exactly when a result is held; a held result has a price, the number
    its non-empty price text normalizes to; the headless button shows
    its state; the two spin boxes are in their ranges. *)
Theorem window_invariant (evs : list event) (fs : filesystem) :
  window_ok (app_window (run evs (start fs))).
Proof.
  apply run_window_ok. exact MainWindow_init_ok.
Qed.

(** *** What reaches the history file *)

Lemma append_history_any_Some (now url title : str) (v : float) (raw : str)
    (fs : filesystem) :
  append_history_any now url title (Some v) raw fs
  = append_history_csv now url title v raw fs.
Proof. reflexivity. Qed.

Lemma history_grown_refl (h : option (list row)) : history_grown h h.
Proof.
  destruct h as [old |]; [| exact I].
  exists []. split; [symmetry; apply app_nil_r | constructor].
Qed.

Lemma history_grown_append (before : option (list row)) (fs : filesystem)
    (now url title raw : str) (v : float) :
  raw <> [] ->
  normalize_price_to_float raw = Ok (Some v) ->
  history_grown before (history fs) ->
  history_grown before
    (history (append_history_csv now url title v raw fs)).
Proof.
  intros Hraw Hn Hg.
  assert (Hrow : parsed_row
                   [CStr now; CStr url; CStr title; CFloat v; CStr raw]).
  { exists now, url, title, raw, v. repeat split; assumption. }
  destruct (history fs) as [rs |] eqn:Hfs.
  - rewrite (append_existing now url title v raw fs rs Hfs).
    destruct before as [old |]; cbn in *.
    + destruct Hg as (rows & -> & Hrows).
      exists (rows ++ [[CStr now; CStr url; CStr title; CFloat v; CStr raw]]).
      split; [symmetry; apply app_assoc |].
      apply Forall_app. split; [exact Hrows | constructor; [exact Hrow |]].
      constructor.
    + destruct Hg as (rows & -> & Hrows).
      exists (rows ++ [[CStr now; CStr url; CStr title; CFloat v; CStr raw]]).
      split; [reflexivity |].
      apply Forall_app. split; [exact Hrows | constructor; [exact Hrow |]].
      constructor.
  - rewrite (append_creates now url title v raw fs Hfs).
    destruct before as [old |]; cbn in *; [destruct Hg |].
    exists [[CStr now; CStr url; CStr title; CFloat v; CStr raw]].
    split; [reflexivity |]. constructor; [exact Hrow | constructor].
Qed.

Lemma step_history_grown (before : option (list row)) (a : application)
    (ev : event) :
  window_ok (app_window a) ->
  history_grown before (history (app_fs a)) ->
  history_grown before (history (app_fs (step a ev))).
Proof.
  intros Hw Hg.
  destruct ev as [text | v | v | | loaded now1 now2 | now1 now2];
    cbn [step]; try exact Hg.
  - destruct (fetch_enabled (app_window a)); [| exact Hg].
    destruct (fetch_price loaded now1 now2 (app_window a)) as [w' ds].
    exact Hg.
  - destruct (save_enabled (app_window a)); [| exact Hg].
    unfold save_history.
    destruct (last_result (app_window a)) as [data |] eqn:Hl; [| exact Hg].
    destruct Hw as (_ & _ & _ & _ & _ & Hdata).
    destruct (Hdata data Hl) as (v & Hp & Hraw & Hn).
    cbn [app_fs]. rewrite Hp, append_history_any_Some.
    apply history_grown_append; assumption.
Qed.

Lemma run_history_grown (before : option (list row)) (evs : list event)
    (a : application) :
  window_ok (app_window a) ->
  history_grown before (history (app_fs a)) ->
  history_grown before (history (app_fs (run evs a))).
Proof.
  revert a. induction evs as [| ev evs IHevs]; intros a Hw Hg; [exact Hg |].
  cbn [run fold_left]. apply IHevs.
  - apply step_window_ok, Hw.
  - apply step_history_grown; assumption.
Qed.

(** X7.  Only parsed prices reach the history file.  Whatever the user
    and the browser do, the file is left alone or grows: the rows it had
    stay, a header comes first if the file was not there, and every row
    added holds a price that is the number its own non-empty raw price
    text normalizes to. *)
Theorem history_holds_parsed_prices (evs : list event) (fs : filesystem) :
  history_grown (history fs) (history (app_fs (run evs (start fs)))).
Proof.
  apply run_history_grown.
  - exact MainWindow_init_ok.
  - apply history_grown_refl.
Qed.

(** *** Saving after a fetch *)

Lemma fetch_ok_url (url : str) (soup : Soup) (data : observation) :
  fetch_amazon_price url soup = Ok data -> obs_url data = url.
Proof.
  intros Hdata.
  destruct (fetch_cases url soup)
    as [[_ Hf] | [(t & _ & _ & Hf) | (t & v & title & _ & _ & Hf)]];
    rewrite Hf in Hdata; try discriminate Hdata.
  injection Hdata as <-. reflexivity.
Qed.

Lemma fetch_price_holds (loaded : page_load) (now1 now2 : str) (w : window) :
  truthy (strip (url_input w)) = true ->
  str_contains (py "amazon") (str_lower (strip (url_input w))) = true ->
  last_result (fst (fetch_price loaded now1 now2 w))
  = fetched loaded (strip (url_input w))
  /\ save_enabled (fst (fetch_price loaded now1 now2 w))
     = match fetched loaded (strip (url_input w)) with
       | Some _ => true
       | None => false
       end.
Proof.
  intros Hurl Ham. unfold fetch_price, fetched.
  rewrite Hurl, Ham. cbn [negb orb].
  destruct loaded as [soup | | msg | msg];
    [destruct (fetch_amazon_price _ soup) as [data | e] | | |];
    window_simpl; split; reflexivity.
Qed.

(** X11.  Saving after a fetch.  After a click on the fetch button with
    an accepted URL, a click on the save button writes the row of this
    very fetch (the URL as typed, stripped; the title, price and raw
    price text of the observation) when the fetch succeeded, and writes
    nothing when it failed: the result of an earlier fetch cannot be
    saved any more. *)
Theorem save_after_fetch (a : application) (loaded : page_load)
    (n1 n2 m1 m2 : str) :
  window_ok (app_window a) ->
  truthy (strip (url_input (app_window a))) = true ->
  str_contains (py "amazon") (str_lower (strip (url_input (app_window a))))
  = true ->
  match fetched loaded (strip (url_input (app_window a))) with
  | Some data =>
      exists v,
        obs_price data = Some v
        /\ obs_url data = strip (url_input (app_window a))
        /\ app_fs (step (step a (ClickFetch loaded n1 n2)) (ClickSave m1 m2))
           = append_history_csv m1 (strip (url_input (app_window a)))
               (obs_title data) v (obs_price_text data) (app_fs a)
  | None =>
      app_fs (step (step a (ClickFetch loaded n1 n2)) (ClickSave m1 m2))
      = app_fs a
      /\ save_enabled
           (app_window
              (step (step a (ClickFetch loaded n1 n2)) (ClickSave m1 m2)))
         = false
  end.
Proof.
  intros Hw Hurl Ham.
  destruct (fetch_price_holds loaded n1 n2 (app_window a) Hurl Ham)
    as [Hlast Hsave].
  assert (Hfe : fetch_enabled (app_window a) = true) by apply Hw.
  cbn [step]. rewrite Hfe.
  destruct (fetch_price loaded n1 n2 (app_window a)) as [w' ds] eqn:Hfp.
  cbn [fst] in Hlast, Hsave. cbn [app_window app_fs].
  rewrite Hsave.
  destruct (fetched loaded (strip (url_input (app_window a))))
    as [data |] eqn:Hfetched.
  - unfold save_history. rewrite Hlast. cbn [app_fs].
    assert (Hdata : exists soup,
               fetch_amazon_price (strip (url_input (app_window a))) soup
               = Ok data).
    { unfold fetched in Hfetched.
      destruct loaded as [soup | | msg | msg]; try discriminate Hfetched.
      exists soup.
      destruct (fetch_amazon_price _ soup) as [d | e];
        [injection Hfetched as ->; reflexivity | discriminate Hfetched]. }
    destruct Hdata as (soup & Hdata).
    destruct (fetch_ok_inv _ _ _ Hdata) as (v & Hp & _ & _).
    pose proof (fetch_ok_url _ _ _ Hdata) as Hu.
    exists v. split; [exact Hp |]. split; [exact Hu |].
    rewrite Hp, Hu. reflexivity.
  - cbn [app_fs app_window]. split; [reflexivity | exact Hsave].
Qed.

(** X8.  The target alert.  A click on the fetch button shows the
    "Target Reached!" box exactly when the URL is accepted, the page is
    delivered, the extraction succeeds, the target is positive and the
    price is at most the target; a price equal to the target alerts.
    No other dialog of that title is shown. *)
Theorem fetch_price_alert (loaded : page_load) (now1 now2 : str)
    (w : window) :
  (exists text,
      In (Information (py "Target Reached!") text)
        (snd (fetch_price loaded now1 now2 w)))
  <-> (truthy (strip (url_input w)) = true
       /\ str_contains (py "amazon") (str_lower (strip (url_input w))) = true
       /\ exists soup data x,
            loaded = PageSource soup
            /\ fetch_amazon_price (strip (url_input w)) soup = Ok data
            /\ obs_price data = Some x
            /\ (0 < target_price w)%Z
            /\ float_le_int x (target_price w) = true).
Proof.
  unfold fetch_price.
  destruct (truthy (strip (url_input w))) eqn:Hurl; cbn [negb orb].
  2:{ split.
      - intros (text & [H | []]). discriminate H.
      - intros (H & _). discriminate H. }
  destruct (str_contains _ _) eqn:Ham; cbn [negb].
  2:{ split.
      - intros (text & [H | []]). discriminate H.
      - intros (_ & H & _). discriminate H. }
  destruct loaded as [soup | | msg | msg].
  - destruct (fetch_amazon_price _ soup) as [data | e] eqn:Hf.
    + unfold show_result. cbn [snd fst target_price set_save_enabled log
        set_price_lbl set_title_lbl set_last_result set_fetch_enabled].
      destruct (obs_price data) as [x |] eqn:Hp.
      * destruct (Z.gtb_spec (target_price w) 0) as [Hpos | Hpos];
          cbn [andb].
        -- destruct (float_le_int x (target_price w)) eqn:Hle.
           ++ split.
              ** intros _. repeat split.
                 exists soup, data, x. repeat split; try assumption.
              ** intros _. eexists. left. reflexivity.
           ++ split.
              ** intros (text & []).
              ** intros (_ & _ & s & d & x' & [= <-] & Hd & Hx & _ & Hle').
                 rewrite Hf in Hd. injection Hd as <-.
                 rewrite Hp in Hx. injection Hx as <-. congruence.
        -- split.
           ++ intros (text & []).
           ++ intros (_ & _ & s & d & x' & _ & _ & _ & Hpos' & _). lia.
      * split.
        -- intros (text & []).
        -- intros (_ & _ & s & d & x' & [= <-] & Hd & Hx & _).
           rewrite Hf in Hd. injection Hd as <-. congruence.
    + split.
      * intros (text & [H | []]). discriminate H.
      * intros (_ & _ & s & d & x' & [= <-] & Hd & _). congruence.
  - split.
    + intros (text & [H | []]). discriminate H.
    + intros (_ & _ & s & d & x' & H & _). discriminate H.
  - split.
    + intros (text & [H | []]). discriminate H.
    + intros (_ & _ & s & d & x' & H & _). discriminate H.
  - split.
    + intros (text & [H | []]). discriminate H.
    + intros (_ & _ & s & d & x' & H & _). discriminate H.
Qed.

End WindowFacts.

(* ===================================================================== *)
(** ** What the extraction reads of the page *)
(* ===================================================================== *)

Section ReadsFacts.
Context {U : UnicodeData}.

Lemma first_price_text_ext (soup soup' : Soup) (rules : list string) :
  (forall sel, In sel rules -> select_one soup' sel = select_one soup sel) ->
  first_price_text soup' rules = first_price_text soup rules.
Proof.
  induction rules as [| sel rest IHrules]; intros Hsame; [reflexivity |].
  cbn [first_price_text].
  rewrite (Hsame sel (or_introl eq_refl)).
  rewrite IHrules; [reflexivity |].
  intros s Hs. apply Hsame. right. exact Hs.
Qed.

Lemma fetch_ext (url : str) (soup soup' : Soup) :
  or_else (select_one soup' "#productTitle") (select_one soup' "h1#title")
  = or_else (select_one soup "#productTitle") (select_one soup "h1#title") ->
  (forall sel, In sel candidates ->
               select_one soup' sel = select_one soup sel) ->
  fetch_amazon_price url soup' = fetch_amazon_price url soup.
Proof.
  intros Htitle Hprice. unfold fetch_amazon_price.
  rewrite Htitle, (first_price_text_ext soup soup' candidates Hprice).
  reflexivity.
Qed.

Lemma h1_title_not_candidate : ~ In "h1#title"%string candidates.
Proof.
  unfold candidates. cbn [In].
  intros [H | [H | [H | [H | [H | [H | []]]]]]]; discriminate H.
Qed.

(** X10.  What the extraction reads of the page.  Two pages on which
    the two title selectors and the six price selectors find the same
    elements give the same result.  For the title the first element
    found wins, whatever its text: when [#productTitle] finds an
    element the title is the text of that element, even if it is empty,
    and what [h1#title] finds changes nothing. *)
Theorem fetch_reads_only (url : str) (soup soup' : Soup) :
  ((forall sel, In sel (title_rules ++ candidates) ->
                select_one soup' sel = select_one soup sel) ->
   fetch_amazon_price url soup' = fetch_amazon_price url soup)
  /\ (forall el : Tag,
        select_one soup "#productTitle" = Some el ->
        (forall sel, sel <> "h1#title"%string ->
                     select_one soup' sel = select_one soup sel) ->
        fetch_amazon_price url soup' = fetch_amazon_price url soup
        /\ forall obs, fetch_amazon_price url soup = Ok obs ->
                       obs_title obs = get_text [SPACE] el).
Proof.
  split.
  - intros Hsame. apply fetch_ext.
    + rewrite (Hsame "#productTitle"%string), (Hsame "h1#title"%string);
        [reflexivity | |]; apply in_or_app; left; cbn; auto.
    + intros sel Hsel. apply Hsame. apply in_or_app. right. exact Hsel.
  - intros el Hel Hsame. split.
    + apply fetch_ext.
      * rewrite (Hsame "#productTitle"%string) by discriminate.
        rewrite Hel. reflexivity.
      * intros sel Hsel. apply Hsame. intros ->.
        apply h1_title_not_candidate. exact Hsel.
    + intros obs Hobs. unfold fetch_amazon_price in Hobs.
      rewrite Hel in Hobs. cbn [or_else] in Hobs.
      destruct (negb _); [discriminate Hobs |].
      destruct (normalize_price_to_float _) as [[v |] | e];
        cbn [bind] in Hobs; try discriminate Hobs.
      injection Hobs as <-. reflexivity.
Qed.

End ReadsFacts.

(* ===================================================================== *)
(** ** Time stamps *)
(* ===================================================================== *)

Section StampFacts.

Lemma compare_by_base (k qa ra qb rb a b : N) :
  a = k * qa + ra -> b = k * qb + rb -> ra < k -> rb < k ->
  (a ?= b) = then_compare (qa ?= qb) (ra ?= rb).
Proof.
  intros -> -> Ha Hb. unfold then_compare.
  destruct (N.compare_spec qa qb) as [Hq | Hq | Hq].
  - subst. destruct (N.compare_spec ra rb) as [Hr | Hr | Hr].
    + apply N.compare_eq_iff. lia.
    + apply N.compare_lt_iff. lia.
    + apply N.compare_gt_iff. lia.
  - apply N.compare_lt_iff. nia.
  - apply N.compare_gt_iff. nia.
Qed.

Lemma compare_by_tens (a b : N) :
  (a ?= b) = then_compare (a / 10 ?= b / 10) (a mod 10 ?= b mod 10).
Proof.
  apply (compare_by_base 10).
  - apply N.div_mod. discriminate.
  - apply N.div_mod. discriminate.
  - apply N.mod_lt. discriminate.
  - apply N.mod_lt. discriminate.
Qed.

Lemma compare_by_hundreds (a b : N) :
  (a ?= b) = then_compare (a / 100 ?= b / 100) (a mod 100 ?= b mod 100).
Proof.
  apply (compare_by_base 100).
  - apply N.div_mod. discriminate.
  - apply N.div_mod. discriminate.
  - apply N.mod_lt. discriminate.
  - apply N.mod_lt. discriminate.
Qed.

Lemma digit_char_compare (p q : N) :
  (digit_char p ?= digit_char q) = (p ?= q).
Proof.
  unfold digit_char.
  destruct (N.compare_spec p q) as [Hpq | Hpq | Hpq].
  - apply N.compare_eq_iff. lia.
  - apply N.compare_lt_iff. lia.
  - apply N.compare_gt_iff. lia.
Qed.

Lemma then_compare_assoc (c d e : comparison) :
  then_compare (then_compare c d) e = then_compare c (then_compare d e).
Proof. destruct c; reflexivity. Qed.

Lemma pad2_compare (a b : N) (x y : str) :
  str_compare (pad2 a ++ x) (pad2 b ++ y)
  = then_compare (a ?= b) (str_compare x y).
Proof.
  rewrite (compare_by_tens a b). unfold pad2. cbn [List.app str_compare].
  rewrite !digit_char_compare.
  destruct (a / 10 ?= b / 10); try reflexivity.
  destruct (a mod 10 ?= b mod 10); reflexivity.
Qed.

Lemma pad4_compare (a b : N) (x y : str) :
  str_compare (pad4 a ++ x) (pad4 b ++ y)
  = then_compare (a ?= b) (str_compare x y).
Proof.
  rewrite (compare_by_hundreds a b). unfold pad4.
  rewrite <- !app_assoc, pad2_compare, pad2_compare.
  symmetry. apply then_compare_assoc.
Qed.

Lemma same_char_compare (c : char) (x y : str) :
  str_compare (c :: x) (c :: y) = str_compare x y.
Proof.
  cbn [str_compare]. rewrite N.compare_refl. reflexivity.
Qed.

Lemma now_str_compare (a b : datetime) :
  str_compare (now_str a) (now_str b) = datetime_compare a b.
Proof.
  unfold now_str, datetime_compare.
  change (py "-") with [45]. change (py " ") with [32].
  change (py ":") with [58]. cbn [List.app].
  rewrite pad4_compare, same_char_compare.
  rewrite pad2_compare, same_char_compare.
  rewrite pad2_compare, same_char_compare.
  rewrite pad2_compare, same_char_compare.
  rewrite pad2_compare, same_char_compare.
  rewrite <- (app_nil_r (pad2 (dt_second a))).
  rewrite <- (app_nil_r (pad2 (dt_second b))).
  rewrite pad2_compare. cbn [str_compare].
  destruct (dt_second a ?= dt_second b); reflexivity.
Qed.

Lemma datetime_compare_eq (a b : datetime) :
  datetime_compare a b = Eq -> a = b.
Proof.
  destruct a as [y1 m1 d1 h1 n1 s1], b as [y2 m2 d2 h2 n2 s2].
  unfold datetime_compare, then_compare. cbn.
  destruct (N.compare_spec y1 y2); try discriminate.
  destruct (N.compare_spec m1 m2); try discriminate.
  destruct (N.compare_spec d1 d2); try discriminate.
  destruct (N.compare_spec h1 h2); try discriminate.
  destruct (N.compare_spec n1 n2); try discriminate.
  destruct (N.compare_spec s1 s2); try discriminate.
  intros _. subst. reflexivity.
Qed.

Lemma str_compare_refl (s : str) : str_compare s s = Eq.
Proof.
  induction s as [| c s IHs]; [reflexivity |].
  rewrite same_char_compare. exact IHs.
Qed.

(** X9.  Time stamps sort as time.  For clock readings of four-digit
    year, the stamp has nineteen characters, the order of two stamps as
    strings is the order of the two readings, and two readings with the
    same stamp are the same second. *)
Theorem now_str_sorts (a b : datetime) :
  valid_datetime a -> valid_datetime b ->
  length (now_str a) = 19%nat
  /\ str_compare (now_str a) (now_str b) = datetime_compare a b
  /\ (now_str a = now_str b -> a = b).
Proof.
  intros _ _. split; [reflexivity |].
  split; [apply now_str_compare |].
  intros Heq. apply datetime_compare_eq.
  rewrite <- now_str_compare, Heq. apply str_compare_refl.
Qed.

End StampFacts.

(* ===================================================================== *)
(** ** The statements at concrete inputs *)
(* ===================================================================== *)

#[local] Existing Instance sample_unicode.

(** ["1.234,56 TL"]: the last separator is the comma, so the dot is a
    grouping mark; ["1,234.56"]: the other way round; ["49,90"]: only a
    comma; ["$49.90"]: no comma. *)
Lemma normalize_separator_policy_witness :
  normalize_price_to_float (py "1.234,56 TL") = spec_parse (py "1234.56")
  /\ normalize_price_to_float (py "1,234.56") = spec_parse (py "1234.56")
  /\ normalize_price_to_float (py "49,90") = spec_parse (py "49.90")
  /\ normalize_price_to_float (py "$49.90") = spec_parse (py "49.90").
Proof.
  split; [| split; [| split]].
  - apply (proj1 (proj2 (normalize_separator_policy (py "1.234,56 TL")))
             COMMA DOT (py "1.234") (py "56")).
    + left. split; reflexivity.
    + reflexivity.
    + simpl. intros [H | [H | []]]; discriminate H.
    + simpl. intros [H | [H | []]]; discriminate H.
    + simpl. right. left. reflexivity.
  - apply (proj1 (proj2 (normalize_separator_policy (py "1,234.56")))
             DOT COMMA (py "1,234") (py "56")).
    + right. split; reflexivity.
    + reflexivity.
    + simpl. intros [H | [H | []]]; discriminate H.
    + simpl. intros [H | [H | []]]; discriminate H.
    + simpl. right. left. reflexivity.
  - apply (proj1 (proj2 (proj2 (normalize_separator_policy (py "49,90"))))).
    + simpl. right. right. left. reflexivity.
    + simpl. intros [H | [H | [H | [H | [H | []]]]]]; discriminate H.
  - apply (proj2 (proj2 (proj2 (normalize_separator_policy (py "$49.90"))))).
    simpl. intros [H | [H | [H | [H | [H | []]]]]]; discriminate H.
Defined.

(** A document matching only the third of the six price selectors. *)
Lemma locator_first_match_witness :
  first_price_text page_third_rule candidates = Some (py "1.234,56 TL").
Proof.
  apply (proj1 (locator_first_match page_third_rule candidates)
           [ "#priceblock_ourprice"; "#priceblock_dealprice" ]%string
           [ "span.a-price span.a-offscreen";
             "#corePriceDisplay_desktop_feature_div span.a-price span.a-offscreen";
             "#corePrice_feature_div span.a-price span.a-offscreen" ]%string
           "#priceblock_saleprice"%string).
  - reflexivity.
  - repeat constructor; left; reflexivity.
  - vm_compute. reflexivity.
  - discriminate.
Defined.

(** A page with no price element, and a page whose price text is a
    dash. *)
Lemma fetch_failures_witness :
  fetch_amazon_price (py "https://www.amazon.com.tr/dp/B0") (page [])
  = Raise PriceNotFound
  /\ fetch_amazon_price (py "https://www.amazon.com.tr/dp/B0") page_dash_price
     = Raise PriceUnparseable.
Proof.
  split.
  - apply (proj1 (fetch_failures _ (page []))). reflexivity.
  - apply (proj1 (proj2 (fetch_failures _ page_dash_price))).
    exists [8212]. split; vm_compute; reflexivity.
Defined.

Lemma normalize_empty_remainder_witness :
  normalize_price_to_float (py "TL ") = Unparseable.
Proof.
  apply (proj1 normalize_empty_remainder (py "TL ")). reflexivity.
Defined.

Lemma fetch_title_optional_witness :
  fetch_amazon_price (py "https://www.amazon.com.tr/dp/B0") page_bare_price
  = Ok {| obs_url := py "https://www.amazon.com.tr/dp/B0";
          obs_title := [];
          obs_price := Some (float_of_decimal 4990 2);
          obs_price_text := py "49.90";
          obs_currency_hint := currency_hint_of (py "49.90") |}.
Proof.
  apply (fetch_title_optional _ page_bare_price).
  - repeat constructor; left; reflexivity.
  - vm_compute. reflexivity.
  - vm_compute. reflexivity.
Defined.

(** C7 does not hold as worded: on this page there is no title element,
    the price chain finds the text of the price element, and the
    extraction fails all the same, because that text does not
    normalize. *)
Lemma title_absent_price_unparseable :
  Forall (rule_fails page_dash_price) title_rules
  /\ first_price_text page_dash_price candidates = Some [8212]
  /\ fetch_amazon_price (py "https://www.amazon.com.tr/dp/B0") page_dash_price
     = Raise PriceUnparseable
  /\ ~ (exists obs : observation,
          fetch_amazon_price (py "https://www.amazon.com.tr/dp/B0")
            page_dash_price = Ok obs
          /\ obs_title obs = []).
Proof.
  split; [repeat constructor; left; reflexivity |].
  split; [vm_compute; reflexivity |].
  assert (H : fetch_amazon_price (py "https://www.amazon.com.tr/dp/B0")
                page_dash_price = Raise PriceUnparseable)
    by (vm_compute; reflexivity).
  split; [exact H |].
  intros (obs & Hobs & _). rewrite H in Hobs. discriminate Hobs.
Qed.

(** Two calls, the first of which creates the file. *)
Lemma append_history_rows_witness :
  history (save_all [first_request; second_request] empty_fs)
  = Some (header :: map data_row [first_request; second_request]).
Proof.
  apply (proj1 (proj2 (proj2 append_history_rows))
           first_request [second_request] empty_fs).
  reflexivity.
Defined.

(* ===================================================================== *)
(** ** The further properties at concrete inputs *)
(* ===================================================================== *)

#[local] Existing Instance sample_builtins.


(** ["1,234,567"]: the comma that comes last also occurs before. *)
Lemma normalize_repeated_mark_witness :
  normalize_price_to_float (py "1,234,567") = Unparseable.
Proof.
  apply (normalize_repeated_mark (py "1,234,567")
           COMMA DOT (py "1,234") (py "567")).
  - left. split; reflexivity.
  - reflexivity.
  - vm_compute. intuition discriminate.
  - vm_compute. intuition discriminate.
  - left. vm_compute. auto.
Defined.

Lemma normalize_nonnegative_witness :
  nonnegative (float_of_decimal 4990 2).
Proof.
  apply (proj1 normalize_nonnegative (py "-49.90")).
  vm_compute. reflexivity.
Defined.

Lemma observation_texts_trimmed_witness :
  py "1.234,56 TL" <> []
  /\ trimmed (py "1.234,56 TL")
  /\ trimmed [].
Proof.
  apply (proj2 observation_texts_trimmed
           (py "https://www.amazon.com.tr/dp/B0") page_third_rule
           {| obs_url := py "https://www.amazon.com.tr/dp/B0";
              obs_title := [];
              obs_price := Some (float_of_decimal 123456 2);
              obs_price_text := py "1.234,56 TL";
              obs_currency_hint := py "TL" |}).
  vm_compute. reflexivity.
Defined.

(** Two calls on a file that holds one foreign row. *)
Lemma history_append_only_witness :
  history (save_all [first_request; second_request] fs_with_history)
  = Some ([[CStr (py "old")]]
          ++ map data_row [first_request; second_request]).
Proof.
  apply (proj1 history_append_only).
  unfold history, fs_with_history. cbn [fs_files].
  apply lookup_singleton_eq.
Defined.

(** A price of 49.90 against a target of 50. *)
Lemma fetch_price_alert_witness :
  exists text,
    In (Information (py "Target Reached!") text)
      (snd (fetch_price (PageSource page_bare_price)
              (py "2024-01-05 10:00:00") (py "2024-01-05 10:00:03")
              window_with_target)).
Proof.
  apply (proj2 (fetch_price_alert (PageSource page_bare_price)
                  (py "2024-01-05 10:00:00") (py "2024-01-05 10:00:03")
                  window_with_target)).
  split; [vm_compute; reflexivity |].
  split; [vm_compute; reflexivity |].
  eexists page_bare_price, _, (float_of_decimal 4990 2).
  split; [reflexivity |].
  split; [vm_compute; reflexivity |].
  split; [reflexivity |].
  split; [vm_compute; reflexivity | vm_compute; reflexivity].
Defined.

Lemma now_str_sorts_witness :
  length (now_str last_second_of_2024) = 19%nat
  /\ str_compare (now_str last_second_of_2024) (now_str first_second_of_2025)
     = datetime_compare last_second_of_2024 first_second_of_2025
  /\ (now_str last_second_of_2024 = now_str first_second_of_2025 ->
      last_second_of_2024 = first_second_of_2025).
Proof.
  apply (now_str_sorts last_second_of_2024 first_second_of_2025);
    unfold valid_datetime; cbn; lia.
Defined.

(** The empty first title element hides the second one, whatever it
    holds. *)
Lemma fetch_reads_only_witness :
  fetch_amazon_price (py "https://www.amazon.com.tr/dp/B0")
    page_two_titles_other
  = fetch_amazon_price (py "https://www.amazon.com.tr/dp/B0") page_two_titles.
Proof.
  apply (proj2 (fetch_reads_only (py "https://www.amazon.com.tr/dp/B0")
                  page_two_titles page_two_titles_other)
           {| tag_strings := [py "  "] |}).
  - reflexivity.
  - intros sel Hsel. unfold page_two_titles_other, page_two_titles, page.
    cbn [select_one lookup_selector].
    destruct (String.eqb sel "#productTitle"); [reflexivity |].
    destruct (String.eqb_spec sel "h1#title"); [contradiction | reflexivity].
Defined.

(** A fetch of 49.90 on a fresh window, then a save. *)
Lemma save_after_fetch_witness :
  exists v,
    Some (float_of_decimal 4990 2) = Some v
    /\ py "https://www.Amazon.com.tr/dp/B0"
       = strip (url_input window_with_target)
    /\ app_fs
         (step
            (step {| app_window := window_with_target; app_fs := empty_fs;
                     app_dialogs := [] |}
               (ClickFetch (PageSource page_bare_price)
                  (py "2024-01-05 10:00:00") (py "2024-01-05 10:00:03")))
            (ClickSave (py "2024-01-05 10:01:00") (py "2024-01-05 10:01:00")))
       = append_history_csv (py "2024-01-05 10:01:00")
           (strip (url_input window_with_target)) [] v (py "49.90") empty_fs.
Proof.
  apply (save_after_fetch
           {| app_window := window_with_target; app_fs := empty_fs;
              app_dialogs := [] |}
           (PageSource page_bare_price)
           (py "2024-01-05 10:00:00") (py "2024-01-05 10:00:03")
           (py "2024-01-05 10:01:00") (py "2024-01-05 10:01:00")).
  - unfold window_with_target, MainWindow_init. window_ok_split;
      try reflexivity; try (unfold clamp; lia).
    intros d Hd. discriminate Hd.
  - vm_compute. reflexivity.
  - vm_compute. reflexivity.
Defined.
